(** * gen_imagenette: the imagenette dataset generator of Juneberry

  A shallow embedding of [scripts/dataset_generators/gen_imagenette.py]:
  the script creates a directory tree with one directory per class label,
  writes two JSON dataset specs, and saves every example of the train and
  validation splits as a numbered PNG file in the directory of its label.

  The file system is a finite map from resolved paths to entries, the
  script is a computation in a state-and-exception monad over it, and the
  collaborators the script calls (tensorflow_datasets, PIL, the clock) are
  section variables. *)

From Stdlib Require Import ZArith NArith Ascii String List Lia.
From stdpp Require Import base gmap strings list fin_maps.

Local Open Scope Z_scope.

(** ** Strings: [str.format] with the spec [0>6d] *)

Module PyStr.

Definition digit_char (d : N) : ascii := ascii_of_N (48 + d).

(** Decimal digits of [n], most significant first, pushed in front of
    [acc]. [fuel] bounds the number of digits. *)
Fixpoint dec_digits (fuel : nat) (n : N) (acc : string) : string :=
  match fuel with
  | O => acc
  | S f =>
      let acc' := String (digit_char (n mod 10)) acc in
      if (n / 10 =? 0)%N then acc' else dec_digits f (n / 10) acc'
  end.

(** [str(n)] for a non-negative Python int. A number has no more decimal
    digits than binary ones, so the fuel is enough ([value_str_int]). *)
Definition str_int (n : N) : string :=
  dec_digits (S (N.to_nat (N.log2 n))) n "".

Fixpoint replicate_char (k : nat) (c : ascii) : string :=
  match k with
  | O => ""
  | S k' => String c (replicate_char k' c)
  end.

(** Alignment [>] with a fill character: pad on the left up to [width]. *)
Definition rjust (fill : ascii) (width : nat) (s : string) : string :=
  replicate_char (width - String.length s) fill +:+ s.

(** [f"{cnt:0>6d}"] *)
Definition format_0gt6d (cnt : N) : string := rjust "0" 6 (str_int cnt).

(** The number a string of decimal digits denotes (leading zeros allowed). *)
Definition digit_val (c : ascii) : N := (N_of_ascii c - 48)%N.

Fixpoint value_from (v : N) (s : string) : N :=
  match s with
  | EmptyString => v
  | String c s' => value_from (10 * v + digit_val c)%N s'
  end.

Definition is_digit (c : ascii) : bool :=
  ((48 <=? N_of_ascii c) && (N_of_ascii c <=? 57))%N.

Fixpoint all_chars (P : ascii -> bool) (s : string) : bool :=
  match s with
  | EmptyString => true
  | String c s' => P c && all_chars P s'
  end.

End PyStr.

(** ** Paths: [os.path.join] (posixpath) and path resolution *)

Module PosixPath.

Definition is_sep (c : ascii) : bool := bool_decide (c = "/"%char).

Definition startswith_sep (s : string) : bool :=
  match s with
  | String c _ => is_sep c
  | EmptyString => false
  end.

Fixpoint endswith_sep (s : string) : bool :=
  match s with
  | EmptyString => false
  | String c EmptyString => is_sep c
  | String _ s' => endswith_sep s'
  end.

(** One round of the loop of [posixpath.join]: an absolute component
    replaces what was joined so far. *)
Definition join2 (path b : string) : string :=
  if startswith_sep b then b
  else if bool_decide (path = "") || endswith_sep path then path +:+ b
  else path +:+ "/" +:+ b.

Definition join (a : string) (p : list string) : string :=
  fold_left join2 p a.

(** The components of a path, as the kernel resolves it: split at [/],
    empty components dropped. [cur] is the component being read. The
    model has no working directory and no [.] or [..]: every path the
    script uses is absolute and free of them. *)
Fixpoint components_aux (cur : string) (s : string) : list string :=
  match s with
  | EmptyString => if bool_decide (cur = "") then [] else [cur]
  | String c s' =>
      if is_sep c
      then (if bool_decide (cur = "") then components_aux "" s'
            else cur :: components_aux "" s')
      else components_aux (cur +:+ String c "") s'
  end.

Definition components (s : string) : list string := components_aux "" s.

(** A string that can be one component of a path: not empty, no [/]. *)
Definition no_sep (s : string) : bool :=
  PyStr.all_chars (fun c => negb (is_sep c)) s.

Definition is_component (s : string) : bool :=
  negb (bool_decide (s = "")) && no_sep s.

End PosixPath.


(** ** The run-time model: exceptions, JSON values, the file system *)

Inductive exn :=
| FileExistsError | FileNotFoundError | NotADirectoryError | IsADirectoryError
| IndexError | TypeError | OSError.

Inductive outcome (A : Type) :=
| Ok (a : A)
| Raise (e : exn).
Arguments Ok {A} a.
Arguments Raise {A} e.

(** JSON values. A Python dict keeps its keys in insertion order and
    [json.dump] writes them in that order, so an object is an association
    list. *)
#[warnings="-register-all"]
Inductive json :=
| JInt (n : Z)
| JStr (s : string)
| JList (l : list json)
| JDict (d : list (string * json)).

(** [d[k] = v] *)
Fixpoint dict_set (d : list (string * json)) (k : string) (v : json)
  : list (string * json) :=
  match d with
  | [] => [(k, v)]
  | (k', v') :: d' =>
      if bool_decide (k = k') then (k, v) :: d' else (k', v') :: dict_set d' k v
  end.

(** [d[k]] *)
Fixpoint dict_get (d : list (string * json)) (k : string) : option json :=
  match d with
  | [] => None
  | (k', v') :: d' => if bool_decide (k = k') then Some v' else dict_get d' k
  end.

Definition json_get (j : json) (k : string) : option json :=
  match j with
  | JDict d => dict_get d k
  | _ => None
  end.

(** What a file holds: a JSON document (the model keeps the document, not
    its serialised text) or the bytes of a PNG image. *)
Inductive content :=
| Json (doc : json)
| Png (data : list Byte.byte).

Inductive entry :=
| Dir
| File (c : content).

(** The effects of a run, in the order they happen. *)
Inductive event :=
| EvMkdir (p : list string)
| EvWrite (p : list string) (c : content).

(** The world: the file system, keyed by resolved path (the list of the
    path's components; the root directory is the empty list and always
    exists), and the effects so far. *)
Record world := World {
  fs : gmap (list string) entry;
  trace : list event
}.

Definition M (A : Type) : Type := world -> outcome A * world.

#[global] Instance M_ret : MRet M := fun A (a : A) w => (Ok a, w).

(** An exception ends the computation; the world stays as it was when the
    exception was raised. *)
#[global] Instance M_bind : MBind M := fun A B (f : A -> M B) (m : M A) w =>
  match m w with
  | (Ok a, w') => f a w'
  | (Raise e, w') => (Raise e, w')
  end.

Definition lift {A} (o : outcome A) : M A := fun w => (o, w).

(** [for x in l: body(x)] *)
Fixpoint for_each {A} (l : list A) (body : A -> M unit) : M unit :=
  match l with
  | [] => mret tt
  | x :: l' => body x;; for_each l' body
  end.

Module FS.

Definition node (w : world) (p : list string) : option entry :=
  match p with
  | [] => Some Dir
  | _ => fs w !! p
  end.

Definition parent (p : list string) : list string := removelast p.

Definition is_dir (w : world) (p : list string) : Prop := node w p = Some Dir.

(** [os.mkdir] *)
Definition mkdir (p : list string) : M unit := fun w =>
  match node w p with
  | Some _ => (Raise FileExistsError, w)
  | None =>
      match node w (parent p) with
      | Some Dir =>
          (Ok tt, {| fs := <[p := Dir]> (fs w); trace := trace w ++ [EvMkdir p] |})
      | Some (File _) => (Raise NotADirectoryError, w)
      | None => (Raise FileNotFoundError, w)
      end
  end.

(** [os.makedirs(name, exist_ok=True)] on the components of [name]: every
    prefix of the path, shortest first, is created unless it is a
    directory already; a prefix that is a file is an error. *)
Fixpoint makedirs_from (pre rest : list string) : M unit :=
  match rest with
  | [] => mret tt
  | c :: rest' =>
      let p := pre ++ [c] in
      (fun w =>
         match node w p with
         | None => mkdir p w
         | Some Dir => (Ok tt, w)
         | Some (File _) =>
             (Raise (match rest' with
                     | [] => FileExistsError
                     | _ => NotADirectoryError
                     end), w)
         end);;
      makedirs_from p rest'
  end.

Definition makedirs (name : string) : M unit :=
  makedirs_from [] (PosixPath.components name).

(** Opening the file at [p] for writing and writing [c] to it: what
    [open(path, "w")] with [json.dump], and [Image.save], do to the file
    system. The write is all or nothing. *)
Definition write (p : list string) (c : content) : M unit := fun w =>
  match node w p with
  | Some Dir => (Raise IsADirectoryError, w)
  | _ =>
      match node w (parent p) with
      | Some Dir =>
          (Ok tt, {| fs := <[p := File c]> (fs w); trace := trace w ++ [EvWrite p c] |})
      | Some (File _) => (Raise NotADirectoryError, w)
      | None => (Raise FileNotFoundError, w)
      end
  end.

End FS.

(** [l[i]] for a Python list and a Python (or numpy) integer: a negative
    index counts from the end. *)
Definition list_getitem {A} (l : list A) (i : Z) : outcome A :=
  let n := Z.of_nat (length l) in
  let j := if i <? 0 then i + n else i in
  if (j <? 0) || (n <=? j) then Raise IndexError
  else match l !! Z.to_nat j with
       | Some x => Ok x
       | None => Raise IndexError
       end.

(** ** The script *)

Definition DEST_ROOT : string := "/home/churilla/nfs/datasets/".
Definition DIR_NAME : string := "imagenette".
Definition DIR_ROOT : string := PosixPath.join DEST_ROOT [DIR_NAME].
Definition TRAIN_ROOT : string := PosixPath.join DIR_ROOT ["train"].
Definition TEST_ROOT : string := PosixPath.join DIR_ROOT ["test"].
Definition IMAGENETTE_LABELS : list string :=
  ["tench"; "English_springer"; "cassette_player"; "chain_saw"; "church";
   "French_horn"; "garbage_truck"; "gas_pump"; "golf_ball"; "parachute"].

(** Lines 56-61. *)
Definition build_dirs : M unit :=
  FS.makedirs DEST_ROOT;;
  FS.makedirs (PosixPath.join DEST_ROOT [TRAIN_ROOT]);;
  FS.makedirs (PosixPath.join DEST_ROOT [TEST_ROOT]);;
  for_each [TRAIN_ROOT; TEST_ROOT] (fun d =>
    for_each IMAGENETTE_LABELS (fun lab =>
      FS.makedirs (PosixPath.join (PosixPath.join DEST_ROOT [d; lab]) []))).

(** The list comprehension of lines 72-73 and 83-84. *)
Definition spec_data (split : string) : json :=
  JList (imap (fun i label =>
                 JDict [("label", JInt (Z.of_nat i));
                        ("labelName", JStr label);
                        ("directory", JStr (PosixPath.join DIR_NAME [split; label]))])
              IMAGENETTE_LABELS).

Definition train_spec_filename : string := "imagenette_nXn_rgb_train_van.json".
Definition test_spec_filename : string := "imagenette_nXn_rgb_test_van.json".

(** Lines 65-73; [now] is [str(datetime.datetime.now())]. *)
Definition train_spec (now : string) : json :=
  let d := [] in
  let d := dict_set d "numModelClasses" (JInt 10) in
  let d := dict_set d "imageProperties"
             (JDict [("dimensions", JStr "224,224"); ("colorspace", JStr "rgb")]) in
  let d := dict_set d "sampling"
             (JDict [("algorithm", JStr "none"); ("arguments", JDict [])]) in
  let d := dict_set d "description" (JStr "imagenette train images, NxN, rgb") in
  let d := dict_set d "timestamp" (JStr now) in
  let d := dict_set d "formatVersion" (JStr "2.0.0") in
  let d := dict_set d "data" (spec_data "train") in
  JDict d.

(** Lines 76-84. *)
Definition test_spec (now : string) : json :=
  let d := [] in
  let d := dict_set d "numModelClasses" (JInt 10) in
  let d := dict_set d "imageProperties"
             (JDict [("dimensions", JStr "224,224"); ("colorspace", JStr "rgb")]) in
  let d := dict_set d "sampling"
             (JDict [("algorithm", JStr "none"); ("arguments", JDict [])]) in
  let d := dict_set d "description" (JStr "imagenette test images, NxN, rgb") in
  let d := dict_set d "timestamp" (JStr now) in
  let d := dict_set d "formatVersion" (JStr "2.0.0") in
  let d := dict_set d "data" (spec_data "test") in
  JDict d.

(** [with open(path, "w") as f: json.dump(doc, f)] *)
Definition dump_to (path : string) (doc : json) : M unit :=
  FS.write (PosixPath.components path) (Json doc).

(** Lines 86-89. *)
Definition dump_specs (now_train now_test : string) : M unit :=
  dump_to (PosixPath.join DEST_ROOT [DIR_ROOT; train_spec_filename])
          (train_spec now_train);;
  dump_to (PosixPath.join DEST_ROOT [DIR_ROOT; test_spec_filename])
          (test_spec now_test).

Section Script.

(** The collaborators: numpy arrays and PIL images, [Image.fromarray]
    ([None] when it raises), the PNG encoder behind [Image.save] ([None]
    when it raises), [tfds.load(name, split=..., shuffle_files=False)] with
    [as_numpy_iterator], and the two readings of the clock. *)
Variables ndarray image : Type.

Record example := Example_ { ex_image : ndarray; ex_label : Z }.

Variable fromarray : ndarray -> option image.
Variable png_encode : image -> option (list Byte.byte).
Variable tfds_load : string -> string -> list example.
Variables now_train now_test : string.

(** [Image.fromarray(a)] *)
Definition Image_fromarray (a : ndarray) : M image :=
  lift (match fromarray a with
        | Some img => Ok img
        | None => Raise TypeError
        end).

(** [img.save(path)] *)
Definition Image_save (img : image) (path : string) : M unit :=
  data ← lift (match png_encode img with
               | Some data => Ok data
               | None => Raise OSError
               end);
  FS.write (PosixPath.components path) (Png data).

(** The body of the loops of lines 94-98 and 99-103, at counter [cnt]. *)
Definition save_example (root : string) (cnt : N) (i : example) : M unit :=
  let name := PyStr.format_0gt6d cnt +:+ ".png" in
  img ← Image_fromarray (ex_image i);
  lab ← lift (list_getitem IMAGENETTE_LABELS (ex_label i));
  Image_save img (PosixPath.join DEST_ROOT [root; lab; name]).

(** One of the two loops: the examples of [it] in order, the counter
    going up by one after each save; the result is the counter after the
    loop. *)
Fixpoint write_images (root : string) (it : list example) (cnt : N) : M N :=
  match it with
  | [] => mret cnt
  | i :: rest =>
      save_example root cnt i;;
      write_images root rest (cnt + 1)%N
  end.

(** What one round of the loop writes when nothing raises, file system
    apart: the path and the content of the file. *)
Definition render (root : string) (cnt : N) (i : example)
  : outcome (list string * content) :=
  let name := PyStr.format_0gt6d cnt +:+ ".png" in
  match fromarray (ex_image i) with
  | None => Raise TypeError
  | Some img =>
      match list_getitem IMAGENETTE_LABELS (ex_label i) with
      | Raise e => Raise e
      | Ok lab =>
          match png_encode img with
          | None => Raise OSError
          | Some data =>
              Ok (PosixPath.components (PosixPath.join DEST_ROOT [root; lab; name]),
                  Png data)
          end
      end
  end.

(** The files one loop writes on a file system that takes every write,
    and the exception that ends it, if any. *)
Fixpoint plan (root : string) (it : list example) (cnt : N)
  : list (list string * content) * option exn :=
  match it with
  | [] => ([], None)
  | i :: rest =>
      match render root cnt i with
      | Raise e => ([], Some e)
      | Ok rec =>
          let (recs, r) := plan root rest (cnt + 1)%N in (rec :: recs, r)
      end
  end.

(** The plan of a sequence of rounds, each with its split root. *)
Fixpoint plan_rounds (rs : list (string * example)) (cnt : N)
  : list (list string * content) * option exn :=
  match rs with
  | [] => ([], None)
  | (root, i) :: rest =>
      match render root cnt i with
      | Raise e => ([], Some e)
      | Ok rec =>
          let (recs, r) := plan_rounds rest (cnt + 1)%N in (rec :: recs, r)
      end
  end.

(** The plan of the two loops in sequence, sharing the counter. *)
Definition plan_all : list (list string * content) * option exn :=
  let train_set := tfds_load "imagenette" "train" in
  let test_set := tfds_load "imagenette" "validation" in
  let (recs1, r1) := plan TRAIN_ROOT train_set 0%N in
  match r1 with
  | Some e => (recs1, Some e)
  | None =>
      let (recs2, r2) := plan TEST_ROOT test_set (N.of_nat (length train_set)) in
      (recs1 ++ recs2, r2)
  end.

(** The rounds of the two loops in the order they run: split root and
    example. The round at index [k] runs with counter [k]. *)
Definition rounds : list (string * example) :=
  map (pair TRAIN_ROOT) (tfds_load "imagenette" "train") ++
  map (pair TEST_ROOT) (tfds_load "imagenette" "validation").

(** Lines 91-103. *)
Definition write_all_images : M unit :=
  let train_set := tfds_load "imagenette" "train" in
  let test_set := tfds_load "imagenette" "validation" in
  let cnt := 0%N in
  cnt ← write_images TRAIN_ROOT train_set cnt;
  cnt ← write_images TEST_ROOT test_set cnt;
  mret tt.

(** The whole script, run on a world. *)
Definition script : M unit :=
  build_dirs;;
  dump_specs now_train now_test;;
  write_all_images.

End Script.

Arguments Example_ {ndarray} ex_image ex_label.
Arguments ex_image {ndarray} e.
Arguments ex_label {ndarray} e.
Arguments Image_fromarray {ndarray image} fromarray a.
Arguments Image_save {image} png_encode img path.
Arguments save_example {ndarray image} fromarray png_encode root cnt i.
Arguments write_images {ndarray image} fromarray png_encode root it cnt.
Arguments render {ndarray image} fromarray png_encode root cnt i.
Arguments plan {ndarray image} fromarray png_encode root it cnt.
Arguments plan_rounds {ndarray image} fromarray png_encode rs cnt.
Arguments plan_all {ndarray image} fromarray png_encode tfds_load.
Arguments rounds {ndarray} tfds_load.
Arguments write_all_images {ndarray image} fromarray png_encode tfds_load.
Arguments script {ndarray image} fromarray png_encode tfds_load now_train now_test.

(** ** Observations on worlds and runs *)

(** A run starts with a file system and no effects yet. *)
Definition start (fs0 : gmap (list string) entry) : world := World fs0 [].

(** The paths [FS.makedirs_from pre rest] looks at. *)
Fixpoint prefixes_from (pre rest : list string) : list (list string) :=
  match rest with
  | [] => []
  | c :: rest' => (pre ++ [c]) :: prefixes_from (pre ++ [c]) rest'
  end.

Definition prefixes (name : string) : list (list string) :=
  prefixes_from [] (PosixPath.components name).

(** The arguments of the calls of [os.makedirs] in [build_dirs], in order. *)
Definition dir_names : list string :=
  [DEST_ROOT; PosixPath.join DEST_ROOT [TRAIN_ROOT]; PosixPath.join DEST_ROOT [TEST_ROOT]]
  ++ map (fun lab => PosixPath.join (PosixPath.join DEST_ROOT [TRAIN_ROOT; lab]) [])
         IMAGENETTE_LABELS
  ++ map (fun lab => PosixPath.join (PosixPath.join DEST_ROOT [TEST_ROOT; lab]) [])
         IMAGENETTE_LABELS.

(** Every directory of the tree, with its ancestors. *)
Definition tree_dirs : list (list string) := concat (map prefixes dir_names).

Definition tree_built (w : world) : Prop :=
  forall p, p ∈ tree_dirs -> FS.is_dir w p.

Definition is_mkdir (ev : event) : Prop :=
  match ev with
  | EvMkdir _ => True
  | EvWrite _ _ => False
  end.

(** [w'] is [w] with some directories out of [ds] created. *)
Definition grows (ds : list (list string)) (w w' : world) : Prop :=
  (forall p, fs w' !! p = fs w !! p \/
             (fs w !! p = None /\ fs w' !! p = Some Dir /\ p ∈ ds)) /\
  exists evs, trace w' = trace w ++ evs /\ Forall is_mkdir evs.

(** [w] after the files [recs] were written, in order. *)
Definition write_event (rec : list string * content) : event :=
  EvWrite rec.1 rec.2.

Definition apply_writes (recs : list (list string * content)) (w : world) : world :=
  {| fs := foldl (fun m rec => <[rec.1 := File rec.2]> m) (fs w) recs;
     trace := trace w ++ map write_event recs |}.

(** The image files a trace writes: path and content, in order. *)
Definition written_images (tr : list event) : list (list string * content) :=
  omap (fun ev => match ev with
                  | EvWrite p (Png d) => Some (p, Png d)
                  | _ => None
                  end) tr.

Definition is_png_content (c : content) : Prop :=
  match c with
  | Png _ => True
  | Json _ => False
  end.

(** The content the writes [recs] leave at path [p], if they write it. *)
Definition last_write (recs : list (list string * content)) (p : list string)
  : option content :=
  foldl (fun o rec => if bool_decide (rec.1 = p) then Some rec.2 else o) None recs.

(** The names of the image files a trace writes. *)
Definition image_names (tr : list event) : list string :=
  omap (fun rec => last rec.1) (written_images tr).

(** A computation that never removes a directory. *)
Definition keeps_dirs {A} (m : M A) : Prop :=
  forall w q, FS.is_dir w q -> FS.is_dir (m w).2 q.

Definition image_name (cnt : N) : string := PyStr.format_0gt6d cnt +:+ ".png".

Definition split_roots : list string := [TRAIN_ROOT; TEST_ROOT].

(** The directory of a label under a split root, and the place of an
    image in it. *)
Definition label_dir (root lab : string) : list string :=
  PosixPath.components root ++ [lab].

Definition image_path (root lab : string) (cnt : N) : list string :=
  PosixPath.components root ++ [lab; image_name cnt].

(** No directory sits where an image file goes. *)
Definition slots_free (w : world) : Prop :=
  forall root lab name, root ∈ split_roots -> lab ∈ IMAGENETTE_LABELS ->
    fs w !! (label_dir root lab ++ [name]) <> Some Dir.

(** The label directories exist and the image files can be written. *)
Definition ready (w : world) : Prop :=
  (forall root lab, root ∈ split_roots -> lab ∈ IMAGENETTE_LABELS ->
     FS.is_dir w (label_dir root lab)) /\
  slots_free w.

(** A destination with no prior data: nothing below the dataset root, and
    no file where the root or one of its ancestors goes. *)
Definition empty_destination (fs0 : gmap (list string) entry) : Prop :=
  (forall p c, p ∈ prefixes DIR_ROOT -> fs0 !! p <> Some (File c)) /\
  (forall q, q <> [] -> fs0 !! (PosixPath.components DIR_ROOT ++ q) = None).

Definition is_png (e : entry) : Prop :=
  match e with
  | File (Png _) => True
  | _ => False
  end.

#[global] Instance is_png_dec e : Decision (is_png e).
Proof. destruct e as [|[|]]; simpl; apply _. Defined.

(** The PNG files in directory [d]. *)
Definition png_files_in (w : world) (d : list string) : gmap (list string) entry :=
  filter (fun pe => pe.1 <> [] /\ FS.parent pe.1 = d /\ is_png pe.2) (fs w).

(** Whether the label of example [i], used as an index of the list of
    labels, picks the name [lab]. *)
Definition picks_label {ndarray : Type} (lab : string) (i : example ndarray) : bool :=
  match list_getitem IMAGENETTE_LABELS (ex_label i) with
  | Ok l => bool_decide (l = lab)
  | Raise _ => false
  end.

Definition train_spec_path : list string :=
  PosixPath.components (PosixPath.join DEST_ROOT [DIR_ROOT; train_spec_filename]).
Definition test_spec_path : list string :=
  PosixPath.components (PosixPath.join DEST_ROOT [DIR_ROOT; test_spec_filename]).

(** The two writes of [dump_specs]. *)
Definition spec_writes (now_train now_test : string) : list (list string * content) :=
  [(train_spec_path, Json (train_spec now_train));
   (test_spec_path, Json (test_spec now_test))].

(** The world after the two specs were written into [w1]. *)
Definition with_specs (now_train now_test : string) (w1 : world) : world :=
  apply_writes (spec_writes now_train now_test) w1.


(** ** What the claims are about *)

(** An entry of the [data] array of a spec document. *)
Definition spec_entry (split : string) (i : nat) (label : string) : json :=
  JDict [("label", JInt (Z.of_nat i));
         ("labelName", JStr label);
         ("directory", JStr ("imagenette/" +:+ split +:+ "/" +:+ label))].

(** A spec document as it should be for a split. *)
Definition spec_document_ok (split : string) (doc : json) : Prop :=
  json_get doc "numModelClasses" = Some (JInt 10) /\
  (json_get doc "imageProperties" ≫= fun ip => json_get ip "dimensions")
    = Some (JStr "224,224") /\
  (json_get doc "imageProperties" ≫= fun ip => json_get ip "colorspace")
    = Some (JStr "rgb") /\
  exists entries,
    json_get doc "data" = Some (JList entries) /\
    length entries = 10%nat /\
    forall i label, IMAGENETTE_LABELS !! i = Some label ->
                    entries !! i = Some (spec_entry split i label).

(** A file name made of exactly six decimal digits and [.png]. *)
Definition six_digit_png (name : string) : Prop :=
  exists ds, name = ds +:+ ".png" /\ String.length ds = 6%nat /\
             PyStr.all_chars PyStr.is_digit ds = true.

(** A small data set: three train examples with labels 0, 0, 1 and two
    test examples with labels 2, 9. Arrays and images are numbers; array
    13 cannot be decoded. *)
Module Demo.

Definition fromarray (a : nat) : option nat :=
  if bool_decide (a = 13%nat) then None else Some a.

Definition png_encode (img : nat) : option (list Byte.byte) :=
  Some (replicate img Byte.x2a).

Definition train_set : list (example nat) :=
  [Example_ 1%nat 0; Example_ 2%nat 0; Example_ 3%nat 1].

Definition test_set : list (example nat) :=
  [Example_ 4%nat 2; Example_ 5%nat 9].

Definition load (name split : string) : list (example nat) :=
  if bool_decide (split = "train") then train_set
  else if bool_decide (split = "validation") then test_set
  else [].

Definition now_train : string := "2021-03-01 10:00:00.000001".
Definition now_test : string := "2021-03-01 10:00:00.000002".

(** The same data with a second train example that cannot be decoded. *)
Definition load_broken (name split : string) : list (example nat) :=
  if bool_decide (split = "train")
  then [Example_ 1%nat 0; Example_ 13%nat 0; Example_ 3%nat 1]
  else if bool_decide (split = "validation") then test_set
  else [].

(** The world after the first two stages on an empty file system. *)
Definition tree : world :=
  with_specs now_train now_test (build_dirs (start ∅)).2.

End Demo.

(** A data set of 1000001 train examples. *)
Module Big.

Definition fromarray (a : unit) : option unit := Some a.
Definition png_encode (img : unit) : option (list Byte.byte) := Some [].

Definition load (name split : string) : list (example unit) :=
  if bool_decide (split = "train")
  then replicate (N.to_nat 1000001) (Example_ tt 0)
  else [].

End Big.

(** * Facts *)

(** ** Decimal formatting *)

Module PyStrFacts.
Import PyStr.
Local Open Scope N_scope.

Lemma append_cons c s t : String c s +:+ t = String c (s +:+ t).
Proof. reflexivity. Qed.

Lemma append_nil_l s : "" +:+ s = s.
Proof. reflexivity. Qed.

Lemma append_nil_r s : s +:+ "" = s.
Proof. induction s as [|c s IH]; [reflexivity|]. rewrite append_cons. by f_equal. Qed.

Lemma append_assoc s t u : (s +:+ t) +:+ u = s +:+ (t +:+ u).
Proof. induction s as [|c s IH]; [reflexivity|]. rewrite !append_cons. by f_equal. Qed.

Lemma length_append s t : String.length (s +:+ t) = (String.length s + String.length t)%nat.
Proof. induction s as [|c s IH]; [reflexivity|]. rewrite append_cons. simpl. by rewrite IH. Qed.

Lemma dec_digits_acc fuel n acc :
  dec_digits fuel n acc = dec_digits fuel n "" +:+ acc.
Proof.
  revert n acc. induction fuel as [|f IH]; intros n acc; [reflexivity|].
  simpl. destruct (n / 10 =? 0)%N; [reflexivity|].
  rewrite (IH _ (String _ acc)), (IH _ (String _ "")).
  by rewrite append_assoc.
Qed.

Lemma value_from_app v s t : value_from v (s +:+ t) = value_from (value_from v s) t.
Proof.
  revert v. induction s as [|c s IH]; intros v; [reflexivity|].
  rewrite append_cons. simpl. apply IH.
Qed.

Lemma digit_val_char d : (d < 10)%N -> digit_val (digit_char d) = d.
Proof.
  intros Hd. unfold digit_val, digit_char.
  rewrite N_ascii_embedding by lia. lia.
Qed.

Lemma is_digit_char d : (d < 10)%N -> is_digit (digit_char d) = true.
Proof.
  intros Hd. unfold is_digit, digit_char.
  rewrite N_ascii_embedding by lia.
  apply andb_true_intro; split; apply N.leb_le; lia.
Qed.

(** With enough fuel the digits denote the number. *)
Lemma value_dec_digits fuel n :
  (n < 2 ^ N.of_nat fuel)%N -> value_from 0 (dec_digits fuel n "") = n.
Proof.
  revert n. induction fuel as [|f IH]; intros n Hn.
  - simpl in *. lia.
  - simpl. assert (Hm : (n mod 10 < 10)%N) by (apply N.mod_lt; lia).
    destruct (n / 10 =? 0)%N eqn:Hq.
    + apply N.eqb_eq in Hq. simpl. rewrite digit_val_char by done.
      pose proof (N.div_mod n 10). lia.
    + rewrite dec_digits_acc, value_from_app, IH.
      * simpl. rewrite digit_val_char by done.
        pose proof (N.div_mod n 10). lia.
      * rewrite Nat2N.inj_succ, N.pow_succ_r' in Hn.
        apply N.Div0.div_lt_upper_bound. lia.
Qed.

Lemma fuel_enough n : (n < 2 ^ N.of_nat (S (N.to_nat (N.log2 n))))%N.
Proof.
  rewrite Nat2N.inj_succ, N2Nat.id.
  destruct (N.eq_dec n 0) as [->|Hn]; [done|].
  apply N.log2_spec. lia.
Qed.

Lemma value_str_int n : value_from 0 (str_int n) = n.
Proof. apply value_dec_digits, fuel_enough. Qed.

Lemma all_chars_app P s t :
  all_chars P (s +:+ t) = all_chars P s && all_chars P t.
Proof.
  induction s as [|c s IH]; [reflexivity|].
  rewrite append_cons. simpl. rewrite IH. by rewrite andb_assoc.
Qed.

Lemma digits_dec_digits fuel n acc :
  all_chars is_digit acc = true -> all_chars is_digit (dec_digits fuel n acc) = true.
Proof.
  revert n acc. induction fuel as [|f IH]; intros n acc Hacc; [done|].
  assert (Hm : (n mod 10 < 10)%N) by (apply N.mod_lt; lia).
  assert (all_chars is_digit (String (digit_char (n mod 10)) acc) = true) as H.
  { simpl. by rewrite is_digit_char, Hacc. }
  simpl. destruct (n / 10 =? 0)%N; [exact H | by apply IH].
Qed.

Lemma digits_str_int n : all_chars is_digit (str_int n) = true.
Proof. by apply digits_dec_digits. Qed.

(** The number of digits: at most [k] below [10^k], more than [k] from
    [10^k] on. *)
Lemma length_dec_digits_le fuel n k :
  (n < 10 ^ N.of_nat (S k))%N -> (String.length (dec_digits fuel n "") <= S k)%nat.
Proof.
  revert n k. induction fuel as [|f IH]; intros n k Hn; [simpl; lia|].
  simpl. destruct (n / 10 =? 0)%N eqn:Hq; [simpl; lia|].
  rewrite dec_digits_acc, length_append. simpl.
  destruct k as [|k].
  - apply N.eqb_neq in Hq. exfalso. apply Hq. apply N.div_small. simpl in Hn. lia.
  - specialize (IH (n / 10)%N k).
    rewrite (Nat2N.inj_succ (S k)), N.pow_succ_r' in Hn.
    assert (n / 10 < 10 ^ N.of_nat (S k))%N by (apply N.Div0.div_lt_upper_bound; lia).
    specialize (IH H). lia.
Qed.

Lemma length_dec_digits_gt fuel n k :
  (n < 2 ^ N.of_nat fuel)%N -> (10 ^ N.of_nat k <= n)%N ->
  (k < String.length (dec_digits fuel n ""))%nat.
Proof.
  revert n k. induction fuel as [|f IH]; intros n k Hf Hn.
  - simpl in Hf. assert (0 < 10 ^ N.of_nat k)%N by (apply N.neq_0_lt_0, N.pow_nonzero; lia). lia.
  - simpl. destruct (n / 10 =? 0)%N eqn:Hq.
    + apply N.eqb_eq in Hq. simpl.
      destruct k as [|k]; [lia|]. exfalso.
      rewrite Nat2N.inj_succ, N.pow_succ_r' in Hn.
      assert (0 < 10 ^ N.of_nat k)%N by (apply N.neq_0_lt_0, N.pow_nonzero; lia).
      pose proof (N.div_mod n 10). assert (n mod 10 < 10)%N by (apply N.mod_lt; lia).
      lia.
    + rewrite dec_digits_acc, length_append. simpl.
      destruct k as [|k]; [lia|].
      rewrite Nat2N.inj_succ, N.pow_succ_r' in Hn.
      rewrite Nat2N.inj_succ, N.pow_succ_r' in Hf.
      assert (k < String.length (dec_digits f (n / 10) ""))%nat; [|lia].
      apply IH.
      * apply N.Div0.div_lt_upper_bound. lia.
      * apply N.div_le_lower_bound; lia.
Qed.

Lemma length_replicate_char k c : String.length (replicate_char k c) = k.
Proof. induction k as [|k IH]; simpl; congruence. Qed.

Lemma value_replicate_zero k s :
  value_from 0 (replicate_char k "0" +:+ s) = value_from 0 s.
Proof. induction k as [|k IH]; [reflexivity|]. exact IH. Qed.

Lemma digits_replicate_zero k : all_chars is_digit (replicate_char k "0") = true.
Proof. induction k as [|k IH]; [reflexivity|]. simpl. exact IH. Qed.

(** The formatted counter reads back as the counter. *)
Lemma value_format cnt : value_from 0 (format_0gt6d cnt) = cnt.
Proof. unfold format_0gt6d, rjust. by rewrite value_replicate_zero, value_str_int. Qed.

Lemma format_inj c1 c2 : format_0gt6d c1 = format_0gt6d c2 -> c1 = c2.
Proof. intros H. by rewrite <-(value_format c1), <-(value_format c2), H. Qed.

Lemma digits_format cnt : all_chars is_digit (format_0gt6d cnt) = true.
Proof.
  unfold format_0gt6d, rjust.
  by rewrite all_chars_app, digits_replicate_zero, digits_str_int.
Qed.

Lemma length_format cnt :
  String.length (format_0gt6d cnt) = Nat.max 6 (String.length (str_int cnt)).
Proof. unfold format_0gt6d, rjust. rewrite length_append, length_replicate_char. lia. Qed.

Lemma length_format_small cnt :
  (cnt < 1000000)%N -> String.length (format_0gt6d cnt) = 6%nat.
Proof.
  intros H. rewrite length_format.
  pose proof (length_dec_digits_le (S (N.to_nat (N.log2 cnt))) cnt 5) as Hl.
  unfold str_int. change (10 ^ N.of_nat 6)%N with 1000000%N in Hl. lia.
Qed.

Lemma length_format_large cnt :
  (1000000 <= cnt)%N -> (6 < String.length (format_0gt6d cnt))%nat.
Proof.
  intros H. rewrite length_format.
  pose proof (length_dec_digits_gt _ cnt 6 (fuel_enough cnt)) as Hl.
  unfold str_int. change (10 ^ N.of_nat 6)%N with 1000000%N in Hl. lia.
Qed.

End PyStrFacts.

(** ** Paths *)

Module PosixPathFacts.
Import PyStr PosixPath PyStrFacts.

Lemma append_eq_nil s t : s +:+ t = "" -> s = "" /\ t = "".
Proof. destruct s; [done|]. rewrite append_cons. discriminate. Qed.

Lemma components_aux_no_sep cur s :
  no_sep s = true ->
  components_aux cur s = if bool_decide (cur +:+ s = "") then [] else [cur +:+ s].
Proof.
  revert cur. induction s as [|c s IH]; intros cur Hs.
  - simpl. by rewrite append_nil_r.
  - unfold no_sep in Hs. simpl in Hs. apply andb_prop in Hs as [Hc Hs].
    simpl. destruct (is_sep c); [done|].
    rewrite (IH _ Hs), append_assoc. reflexivity.
Qed.

Lemma components_component s : is_component s = true -> components s = [s].
Proof.
  unfold is_component. intros [Hne Hs]%andb_prop.
  unfold components. rewrite components_aux_no_sep by done.
  rewrite append_nil_l. by destruct (bool_decide (s = "")).
Qed.

Lemma components_aux_app_sep cur p s :
  components_aux cur (p +:+ String "/" s) = components_aux cur p ++ components s.
Proof.
  revert cur. induction p as [|c p IH]; intros cur.
  - rewrite append_nil_l. simpl. by destruct (bool_decide (cur = "")).
  - rewrite append_cons. simpl. destruct (is_sep c).
    + destruct (bool_decide (cur = "")); by rewrite IH.
    + apply IH.
Qed.

(** Appending one more component to a path. *)
Lemma components_snoc p name :
  is_component name = true ->
  components (p +:+ "/" +:+ name) = components p ++ [name].
Proof.
  intros H. unfold components at 1.
  change ("/" +:+ name) with (String "/" name).
  rewrite components_aux_app_sep, (components_component name) by done. reflexivity.
Qed.

Lemma endswith_sep_app a b : b <> "" -> endswith_sep (a +:+ b) = endswith_sep b.
Proof.
  intros Hb. induction a as [|c a IH]; [done|].
  rewrite append_cons. simpl. rewrite IH.
  destruct (a +:+ b) eqn:E; [|done].
  apply append_eq_nil in E as [_ ?]. done.
Qed.

Lemma endswith_sep_no_sep s : no_sep s = true -> endswith_sep s = false.
Proof.
  induction s as [|c s IH]; [done|].
  unfold no_sep. simpl. intros [Hc Hs]%andb_prop.
  destruct s; [by destruct (is_sep c)|]. by apply IH.
Qed.

Lemma startswith_sep_no_sep s : no_sep s = true -> startswith_sep s = false.
Proof.
  destruct s as [|c s]; [done|]. unfold no_sep. simpl.
  intros [Hc _]%andb_prop. by destruct (is_sep c).
Qed.

(** Joining a component onto a path that does not end in [/]. *)
Lemma join2_component a b :
  a <> "" -> endswith_sep a = false -> is_component b = true ->
  join2 a b = a +:+ "/" +:+ b /\ endswith_sep (join2 a b) = false.
Proof.
  intros Ha Hend [Hne Hb]%andb_prop. unfold join2.
  rewrite (startswith_sep_no_sep _ Hb), Hend.
  rewrite bool_decide_eq_false_2 by done. simpl. split; [done|].
  rewrite endswith_sep_app.
  - change ("/" +:+ b) with (String "/" b). simpl.
    rewrite (endswith_sep_no_sep _ Hb). destruct b; [done|]. done.
  - discriminate.
Qed.

Lemma join2_absolute a b : startswith_sep b = true -> join2 a b = b.
Proof. unfold join2. by intros ->. Qed.

(** [os.path.join(a, root, lab, name)] for an absolute [root]: the
    components of [root], then [lab], then [name]. *)
Lemma components_join_abs a root lab name :
  startswith_sep root = true -> endswith_sep root = false ->
  is_component lab = true -> is_component name = true ->
  components (join a [root; lab; name]) = components root ++ [lab; name].
Proof.
  intros Habs Hend Hlab Hname. unfold join. simpl.
  rewrite (join2_absolute _ _ Habs).
  assert (root <> "") as Hne by (by destruct root).
  destruct (join2_component root lab Hne Hend Hlab) as [E1 Hend'].
  rewrite E1 in Hend' |- *.
  assert (root +:+ "/" +:+ lab <> "") as Hne'.
  { intros [? _]%append_eq_nil. done. }
  destruct (join2_component _ name Hne' Hend' Hname) as [-> _].
  rewrite components_snoc by done. rewrite components_snoc by done.
  by rewrite <-app_assoc.
Qed.

Lemma is_digit_not_sep c : is_digit c = true -> is_sep c = false.
Proof.
  intros Hc. unfold is_sep. apply bool_decide_eq_false_2. intros ->. done.
Qed.

Lemma digits_no_sep s : all_chars is_digit s = true -> no_sep s = true.
Proof.
  induction s as [|c s IH]; [done|]. unfold no_sep. simpl.
  intros [Hc Hs]%andb_prop. rewrite (is_digit_not_sep _ Hc). by apply IH.
Qed.

Lemma no_sep_app s t : no_sep (s +:+ t) = no_sep s && no_sep t.
Proof. apply all_chars_app. Qed.

(** The file name of an image is one path component. *)
Lemma image_name_component cnt : is_component (format_0gt6d cnt +:+ ".png") = true.
Proof.
  unfold is_component. apply andb_true_intro. split.
  - apply negb_true_iff, bool_decide_eq_false_2. intros [_ ?]%append_eq_nil. done.
  - rewrite no_sep_app, digits_no_sep by apply digits_format. done.
Qed.

End PosixPathFacts.

(** ** The monad and the file system *)

Lemma bind_unfold {A B} (m : M A) (f : A -> M B) w :
  (m ≫= f) w = match m w with
               | (Ok a, w') => f a w'
               | (Raise e, w') => (Raise e, w')
               end.
Proof. reflexivity. Qed.

Lemma bind_assoc {A B C} (m : M A) (f : A -> M B) (g : B -> M C) w :
  ((m ≫= f) ≫= g) w = (m ≫= (fun a => f a ≫= g)) w.
Proof. rewrite !bind_unfold. destruct (m w) as [[a|e] w']; reflexivity. Qed.

Lemma bind_ret_r {A} (m : M A) w : (m ≫= mret) w = m w.
Proof. rewrite bind_unfold. by destruct (m w) as [[a|e] w']. Qed.

Lemma for_each_app {A} (l1 l2 : list A) body w :
  for_each (l1 ++ l2) body w = (for_each l1 body;; for_each l2 body) w.
Proof.
  revert w. induction l1 as [|x l1 IH]; intros w; [reflexivity|].
  simpl. rewrite bind_assoc, !bind_unfold.
  destruct (body x w) as [[[]|e] w1]; [|reflexivity]. rewrite IH. reflexivity.
Qed.

Lemma for_each_map {A B} (g : A -> B) (l : list A) body w :
  for_each (map g l) body w = for_each l (fun x => body (g x)) w.
Proof.
  revert w. induction l as [|x l IH]; intros w; [reflexivity|].
  simpl. rewrite !bind_unfold. destruct (body (g x) w) as [[[]|e] w1]; [|reflexivity].
  apply IH.
Qed.

Lemma bind_unit_ret (body : M unit) w :
  (body;; mret tt) w = body w.
Proof. rewrite bind_unfold. by destruct (body w) as [[[]|e] w']. Qed.

(** Membership in a list built with [::] and [++]. *)
Ltac elem_tac :=
  try (intros ? ?); simpl in *;
  rewrite ?elem_of_cons, ?elem_of_app, ?elem_of_nil in *; intuition (subst; auto).

Module FSFacts.
Import FS.

Lemma node_snoc w pre c : node w (pre ++ [c]) = fs w !! (pre ++ [c]).
Proof. unfold node. by destruct pre. Qed.

Lemma parent_snoc pre c : parent (pre ++ [c]) = pre.
Proof. apply removelast_last. Qed.

Lemma grows_refl ds w : grows ds w w.
Proof. split; [by left|]. exists []. by rewrite app_nil_r. Qed.

Lemma grows_trans ds w1 w2 w3 : grows ds w1 w2 -> grows ds w2 w3 -> grows ds w1 w3.
Proof.
  intros [H1 (e1 & T1 & F1)] [H2 (e2 & T2 & F2)]. split.
  - intros p. destruct (H1 p) as [E1|(N1 & D1 & I1)], (H2 p) as [E2|(N2 & D2 & I2)].
    + left. congruence.
    + right. rewrite <-E1. done.
    + right. rewrite E2. done.
    + congruence.
  - exists (e1 ++ e2). rewrite T2, T1, app_assoc. split; [done|].
    by apply Forall_app.
Qed.

Lemma grows_weaken ds ds' w w' : ds ⊆ ds' -> grows ds w w' -> grows ds' w w'.
Proof.
  intros Hsub [H1 H2]. split; [|done]. intros p.
  destruct (H1 p) as [?|(?&?&?)]; [by left|]. right. repeat split; try done.
  by apply Hsub.
Qed.

Lemma grows_is_dir ds w w' p : grows ds w w' -> is_dir w p -> is_dir w' p.
Proof.
  intros [H _]. unfold is_dir, node. destruct p as [|c p]; [done|].
  intros Hp. destruct (H (c :: p)) as [->|(?&?&?)]; [done|congruence].
Qed.

Lemma grows_file ds w w' p c :
  grows ds w w' -> (fs w' !! p = Some (File c) <-> fs w !! p = Some (File c)).
Proof.
  intros [H _]. destruct (H p) as [->|(N & D & _)]; [done|].
  rewrite N, D. split; discriminate.
Qed.

(** [os.mkdir] either fails and changes nothing or creates the directory. *)
Lemma mkdir_cases pre c w :
  (exists e, mkdir (pre ++ [c]) w = (Raise e, w)) \/
  (fs w !! (pre ++ [c]) = None /\
   mkdir (pre ++ [c]) w =
     (Ok tt, {| fs := <[pre ++ [c] := Dir]> (fs w);
                trace := trace w ++ [EvMkdir (pre ++ [c])] |})).
Proof.
  unfold mkdir. rewrite node_snoc, parent_snoc.
  destruct (fs w !! (pre ++ [c])) as [x|]; [left; eauto|].
  destruct (node w pre) as [[|x]|]; [right; done|left; eauto..].
Qed.

Lemma grows_mkdir pre c w ds :
  (pre ++ [c]) ∈ ds -> grows ds w (mkdir (pre ++ [c]) w).2.
Proof.
  intros Hin. destruct (mkdir_cases pre c w) as [[e ->]|[Hn ->]].
  - apply grows_refl.
  - split; simpl.
    + intros p. destruct (decide (p = pre ++ [c])) as [->|Hne].
      * right. by rewrite lookup_insert_eq.
      * left. by rewrite lookup_insert_ne.
    + eexists. split; [done|]. by repeat constructor.
Qed.

(** M1: [makedirs] only creates directories, and only on its path. *)
Lemma grows_makedirs_from pre rest w :
  grows (prefixes_from pre rest) w (makedirs_from pre rest w).2.
Proof.
  revert pre w. induction rest as [|c rest IH]; intros pre w; [apply grows_refl|].
  simpl. rewrite bind_unfold, node_snoc.
  assert (forall w1, grows (prefixes_from pre (c :: rest)) w1
                       (makedirs_from (pre ++ [c]) rest w1).2) as IH'.
  { intros w1. eapply grows_weaken; [|apply IH]. elem_tac. }
  destruct (fs w !! (pre ++ [c])) as [[|x]|] eqn:E.
  - apply IH'.
  - apply grows_refl.
  - pose proof (grows_mkdir pre c w (prefixes_from pre (c :: rest))) as Hg.
    destruct (mkdir (pre ++ [c]) w) as [[[]|e] w1]; simpl in *.
    + eapply grows_trans; [apply Hg; elem_tac|apply IH'].
    + apply Hg. elem_tac.
Qed.

(** M2: after a successful [makedirs] every directory on the path exists. *)
Lemma makedirs_from_ok pre rest w w' :
  makedirs_from pre rest w = (Ok tt, w') ->
  forall p, p ∈ prefixes_from pre rest -> is_dir w' p.
Proof.
  revert pre w. induction rest as [|c rest IH]; intros pre w Hrun p Hp.
  { simpl in Hp. elem_tac. }
  simpl in Hrun, Hp. rewrite bind_unfold, node_snoc in Hrun.
  assert (forall w1, is_dir w1 (pre ++ [c]) ->
                     makedirs_from (pre ++ [c]) rest w1 = (Ok tt, w') ->
                     is_dir w' p) as Hstep.
  { intros w1 Hd Hr. apply elem_of_cons in Hp as [->|Hp].
    - pose proof (grows_makedirs_from (pre ++ [c]) rest w1) as Hg.
      rewrite Hr in Hg. by eapply grows_is_dir.
    - by eapply IH. }
  destruct (fs w !! (pre ++ [c])) as [[|x]|] eqn:E.
  - apply (Hstep w); [|done]. unfold is_dir. by rewrite node_snoc.
  - done.
  - destruct (mkdir_cases pre c w) as [[e He]|[_ He]]; rewrite He in Hrun; [done|].
    eapply Hstep; [|done]. unfold is_dir. rewrite node_snoc. simpl.
    by rewrite lookup_insert_eq.
Qed.

(** M4: on a path of directories [makedirs] changes nothing. *)
Lemma makedirs_from_noop pre rest w :
  (forall p, p ∈ prefixes_from pre rest -> is_dir w p) ->
  makedirs_from pre rest w = (Ok tt, w).
Proof.
  revert pre. induction rest as [|c rest IH]; intros pre H; [reflexivity|].
  simpl. rewrite bind_unfold, node_snoc.
  pose proof (H (pre ++ [c])) as Hd. unfold is_dir in Hd. rewrite node_snoc in Hd.
  rewrite Hd by (elem_tac).
  apply IH. intros p Hp. apply H. elem_tac.
Qed.

(** M3: [makedirs] succeeds when no file is in the way. *)
Lemma makedirs_from_succeeds pre rest w :
  is_dir w pre ->
  (forall p c, p ∈ prefixes_from pre rest -> fs w !! p <> Some (File c)) ->
  exists w', makedirs_from pre rest w = (Ok tt, w').
Proof.
  revert pre w. induction rest as [|c rest IH]; intros pre w Hpre Hnf; [by eexists|].
  simpl. rewrite bind_unfold, node_snoc.
  destruct (fs w !! (pre ++ [c])) as [[|x]|] eqn:E.
  - apply IH.
    + unfold is_dir. by rewrite node_snoc.
    + intros p x Hp. apply Hnf. elem_tac.
  - exfalso. eapply (Hnf (pre ++ [c]) x); [elem_tac|done].
  - unfold mkdir. rewrite node_snoc, parent_snoc, E, Hpre.
    apply IH.
    + unfold is_dir. rewrite node_snoc. simpl. by rewrite lookup_insert_eq.
    + intros p x Hp. simpl.
      destruct (decide (p = pre ++ [c])) as [->|Hne].
      * rewrite lookup_insert_eq. discriminate.
      * rewrite lookup_insert_ne by done. apply Hnf. elem_tac.
Qed.

(** A write either fails and changes nothing or puts the file in place. *)
Lemma write_cases p c w :
  (exists e, write p c w = (Raise e, w)) \/
  (node w p <> Some Dir /\ is_dir w (parent p) /\
   write p c w = (Ok tt, apply_writes [(p, c)] w)).
Proof.
  unfold write, is_dir.
  destruct (node w p) as [[|x]|] eqn:E; [left; eauto|..];
    (destruct (node w (parent p)) as [[|y]|]; [right|left; eauto..]);
    repeat split; done.
Qed.

Lemma write_succeeds p c w :
  node w p <> Some Dir -> is_dir w (parent p) ->
  write p c w = (Ok tt, apply_writes [(p, c)] w).
Proof.
  intros Hp Hd. unfold write. rewrite Hd.
  by destruct (node w p) as [[|x]|].
Qed.

End FSFacts.

(** ** Building the directory tree *)

Module BuildFacts.
Import FS FSFacts.

Lemma build_dirs_flat w : build_dirs w = for_each dir_names makedirs w.
Proof.
  unfold build_dirs, dir_names.
  rewrite (for_each_app [_; _; _]). cbn [for_each].
  rewrite !bind_unfold.
  destruct (makedirs DEST_ROOT w) as [[[]|e] w1]; [|done].
  rewrite !bind_unfold.
  destruct (makedirs (PosixPath.join DEST_ROOT [TRAIN_ROOT]) w1) as [[[]|e] w2]; [|done].
  rewrite !bind_unfold.
  destruct (makedirs (PosixPath.join DEST_ROOT [TEST_ROOT]) w2) as [[[]|e] w3]; [|done].
  change ((mret () : M ()) w3) with (Ok (), w3). cbv beta iota.
  rewrite for_each_app, !bind_unfold, !for_each_map.
  match goal with |- context [for_each IMAGENETTE_LABELS ?f w3] =>
    destruct (for_each IMAGENETTE_LABELS f w3) as [[[]|e] w4]; [|done] end.
  rewrite !bind_unfold, for_each_map.
  match goal with |- context [for_each IMAGENETTE_LABELS ?f w4] =>
    destruct (for_each IMAGENETTE_LABELS f w4) as [[[]|e] w5]; done end.
Qed.

Lemma grows_for_each_makedirs names w :
  grows (concat (map prefixes names)) w (for_each names makedirs w).2.
Proof.
  revert w. induction names as [|name l IH]; intros w; [apply grows_refl|].
  simpl. rewrite bind_unfold.
  pose proof (grows_makedirs_from [] (PosixPath.components name) w) as Hg.
  fold (makedirs name) in Hg. fold (prefixes name) in Hg.
  destruct (makedirs name w) as [[[]|e] w1]; simpl in *.
  - eapply grows_trans.
    + eapply grows_weaken; [|exact Hg]. elem_tac.
    + eapply grows_weaken; [|apply IH]. elem_tac.
  - eapply grows_weaken; [|exact Hg]. elem_tac.
Qed.

Lemma for_each_makedirs_ok names w w' :
  for_each names makedirs w = (Ok tt, w') ->
  forall p, p ∈ concat (map prefixes names) -> is_dir w' p.
Proof.
  revert w. induction names as [|name l IH]; intros w Hrun p Hp.
  { simpl in Hp. elem_tac. }
  simpl in Hrun, Hp. rewrite bind_unfold in Hrun.
  destruct (makedirs name w) as [[[]|e] w1] eqn:E; [|done].
  apply elem_of_app in Hp as [Hp|Hp].
  - pose proof (grows_for_each_makedirs l w1) as Hg.
    rewrite Hrun in Hg. eapply grows_is_dir; [exact Hg|].
    by eapply makedirs_from_ok.
  - by eapply IH.
Qed.

Lemma for_each_makedirs_noop names w :
  (forall p, p ∈ concat (map prefixes names) -> is_dir w p) ->
  for_each names makedirs w = (Ok tt, w).
Proof.
  induction names as [|name l IH]; intros H; [reflexivity|].
  simpl. rewrite bind_unfold. unfold makedirs at 1.
  rewrite makedirs_from_noop.
  - apply IH. intros p Hp. apply H. elem_tac.
  - intros p Hp. apply H. unfold prefixes in *. elem_tac.
Qed.

Lemma for_each_makedirs_succeeds names w :
  (forall p c, p ∈ concat (map prefixes names) -> fs w !! p <> Some (File c)) ->
  exists w', for_each names makedirs w = (Ok tt, w').
Proof.
  revert w. induction names as [|name l IH]; intros w H; [by eexists|].
  simpl. rewrite bind_unfold.
  destruct (makedirs_from_succeeds [] (PosixPath.components name) w) as [w1 E].
  - done.
  - intros p c Hp. apply H. unfold prefixes in *. elem_tac.
  - pose proof (grows_makedirs_from [] (PosixPath.components name) w) as Hg.
    unfold makedirs at 1. rewrite E in Hg |- *. simpl in Hg.
    apply IH. intros p c Hp. rewrite (grows_file _ _ _ _ _ Hg).
    apply H. elem_tac.
Qed.

(** The tree stage: only directories of the tree are created. *)
Lemma build_dirs_grows w : grows tree_dirs w (build_dirs w).2.
Proof. rewrite build_dirs_flat. apply grows_for_each_makedirs. Qed.

Lemma build_dirs_ok w w' : build_dirs w = (Ok tt, w') -> tree_built w'.
Proof. rewrite build_dirs_flat. intros H p. by eapply for_each_makedirs_ok. Qed.

Lemma build_dirs_noop w : tree_built w -> build_dirs w = (Ok tt, w).
Proof. rewrite build_dirs_flat. apply for_each_makedirs_noop. Qed.

Lemma build_dirs_succeeds w :
  (forall p c, p ∈ tree_dirs -> fs w !! p <> Some (File c)) ->
  exists w', build_dirs w = (Ok tt, w').
Proof. rewrite build_dirs_flat. apply for_each_makedirs_succeeds. Qed.

End BuildFacts.

(** ** Writing the images *)

Lemma list_getitem_elem_of {A} (l : list A) i x : list_getitem l i = Ok x -> x ∈ l.
Proof.
  unfold list_getitem. destruct (_ || _); [done|].
  destruct (l !! _) as [y|] eqn:E; [|done].
  intros [= <-]. by eapply list_elem_of_lookup_2.
Qed.

Lemma list_getitem_nonneg {A} (l : list A) i :
  0 <= i < Z.of_nat (length l) ->
  exists x, l !! Z.to_nat i = Some x /\ list_getitem l i = Ok x.
Proof.
  intros Hi. unfold list_getitem.
  destruct (Z.ltb_spec i 0); [lia|].
  destruct (Z.ltb_spec i 0); [lia|]. destruct (Z.leb_spec (Z.of_nat (length l)) i); [lia|].
  simpl. destruct (lookup_lt_is_Some_2 l (Z.to_nat i)) as [x Hx]; [lia|].
  exists x. by rewrite Hx.
Qed.

Lemma list_getitem_neg {A} (l : list A) i :
  - Z.of_nat (length l) <= i < 0 ->
  exists x, l !! Z.to_nat (i + Z.of_nat (length l)) = Some x /\ list_getitem l i = Ok x.
Proof.
  intros Hi. unfold list_getitem.
  destruct (Z.ltb_spec i 0); [|lia].
  destruct (Z.ltb_spec (i + Z.of_nat (length l)) 0); [lia|].
  destruct (Z.leb_spec (Z.of_nat (length l)) (i + Z.of_nat (length l))); [lia|].
  simpl. destruct (lookup_lt_is_Some_2 l (Z.to_nat (i + Z.of_nat (length l)))) as [x Hx]; [lia|].
  exists x. by rewrite Hx.
Qed.

Lemma list_getitem_out {A} (l : list A) i :
  i < - Z.of_nat (length l) \/ Z.of_nat (length l) <= i ->
  list_getitem l i = Raise IndexError.
Proof.
  intros Hi. unfold list_getitem.
  destruct (Z.ltb_spec i 0).
  - destruct (Z.ltb_spec (i + Z.of_nat (length l)) 0); [done|lia].
  - destruct (Z.ltb_spec i 0); [lia|].
    destruct (Z.leb_spec (Z.of_nat (length l)) i); [done|lia].
Qed.

Lemma list_getitem_raises {A} (l : list A) i e :
  list_getitem l i = Raise e ->
  e = IndexError /\ (i < - Z.of_nat (length l) \/ Z.of_nat (length l) <= i).
Proof.
  intros H.
  destruct (Z.lt_ge_cases i (- Z.of_nat (length l))) as [?|Hlo].
  { rewrite list_getitem_out in H by lia. split; [congruence|lia]. }
  destruct (Z.lt_ge_cases i (Z.of_nat (length l))) as [Hhi|?].
  2:{ rewrite list_getitem_out in H by lia. split; [congruence|lia]. }
  destruct (Z.lt_ge_cases i 0).
  - destruct (list_getitem_neg l i) as (x & _ & E); [lia|]. congruence.
  - destruct (list_getitem_nonneg l i) as (x & _ & E); [lia|]. congruence.
Qed.

Lemma labels_components :
  Forall (fun lab => PosixPath.is_component lab = true) IMAGENETTE_LABELS.
Proof. repeat constructor. Qed.

Lemma split_root_shape root :
  root ∈ split_roots ->
  PosixPath.startswith_sep root = true /\ PosixPath.endswith_sep root = false.
Proof.
  unfold split_roots. rewrite !elem_of_cons, elem_of_nil.
  intros [->|[->|[]]]; by vm_compute.
Qed.

(** The place of an image file: the split root, the label, the name. *)
Lemma components_image_path root lab cnt :
  root ∈ split_roots -> lab ∈ IMAGENETTE_LABELS ->
  PosixPath.components (PosixPath.join DEST_ROOT [root; lab; image_name cnt])
  = image_path root lab cnt.
Proof.
  intros [Habs Hend]%split_root_shape Hlab.
  apply PosixPathFacts.components_join_abs; try done.
  - pose proof labels_components as H. rewrite Forall_forall in H. by apply H.
  - apply PosixPathFacts.image_name_component.
Qed.

Lemma apply_writes_nil w : apply_writes [] w = w.
Proof. destruct w. unfold apply_writes. simpl. by rewrite app_nil_r. Qed.

Lemma apply_writes_app l1 l2 w :
  apply_writes (l1 ++ l2) w = apply_writes l2 (apply_writes l1 w).
Proof.
  unfold apply_writes. simpl. by rewrite foldl_app, map_app, app_assoc.
Qed.

Lemma apply_writes_cons rec l w :
  apply_writes (rec :: l) w = apply_writes l (apply_writes [rec] w).
Proof. apply (apply_writes_app [rec]). Qed.

Section ImageFacts.

Context {ndarray image : Type}.
Variable fromarray : ndarray -> option image.
Variable png_encode : image -> option (list Byte.byte).

Lemma save_example_render root cnt i w :
  save_example fromarray png_encode root cnt i w =
  match render fromarray png_encode root cnt i with
  | Raise e => (Raise e, w)
  | Ok rec => FS.write rec.1 rec.2 w
  end.
Proof.
  unfold save_example, render, Image_fromarray, Image_save, lift.
  rewrite !bind_unfold.
  destruct (fromarray (ex_image i)) as [img|]; [|done].
  rewrite !bind_unfold.
  destruct (list_getitem IMAGENETTE_LABELS (ex_label i)) as [lab|e]; [|done].
  rewrite !bind_unfold.
  destruct (png_encode img) as [data|]; done.
Qed.

(** A failed round leaves the world as it was. *)
Lemma save_example_raise root cnt i w e w' :
  save_example fromarray png_encode root cnt i w = (Raise e, w') -> w' = w.
Proof.
  rewrite save_example_render.
  destruct (render _ _ _ _ _) as [[p c]|e']; [|congruence]. simpl.
  destruct (FSFacts.write_cases p c w) as [[e' ->]|(_ & _ & ->)]; congruence.
Qed.

Lemma render_inv root cnt i p c :
  root ∈ split_roots ->
  render fromarray png_encode root cnt i = Ok (p, c) ->
  exists lab img data,
    fromarray (ex_image i) = Some img /\
    list_getitem IMAGENETTE_LABELS (ex_label i) = Ok lab /\
    png_encode img = Some data /\
    p = image_path root lab cnt /\ c = Png data.
Proof.
  intros Hroot. unfold render.
  destruct (fromarray (ex_image i)) as [img|]; [|done].
  destruct (list_getitem IMAGENETTE_LABELS (ex_label i)) as [lab|e] eqn:El; [|done].
  destruct (png_encode img) as [data|] eqn:Ed; [|done].
  intros [= <- <-]. exists lab, img, data. repeat split; try done.
  apply components_image_path; [done|]. by eapply list_getitem_elem_of.
Qed.

(** The loop, whatever the file system: what it wrote is the beginning of
    its plan, all of it when it returns; when it raises, it is the round
    after the last file written that raised. *)
Lemma write_images_run root it cnt w r w' :
  write_images fromarray png_encode root it cnt w = (r, w') ->
  exists recs,
    recs `prefix_of` (plan fromarray png_encode root it cnt).1 /\
    w' = apply_writes recs w /\
    match r with
    | Ok c =>
        recs = (plan fromarray png_encode root it cnt).1 /\
        (plan fromarray png_encode root it cnt).2 = None /\
        length recs = length it /\
        c = (cnt + N.of_nat (length it))%N
    | Raise e =>
        exists i, it !! length recs = Some i /\
          save_example fromarray png_encode root (cnt + N.of_nat (length recs)) i w'
          = (Raise e, w')
    end.
Proof.
  revert cnt w. induction it as [|i rest IH]; intros cnt w Hrun.
  - injection Hrun as <- <-. exists []. rewrite apply_writes_nil.
    repeat split; try done. simpl. lia.
  - simpl in Hrun. rewrite bind_unfold in Hrun.
    destruct (save_example _ _ root cnt i w) as [[[]|e] w1] eqn:Es.
    + pose proof Es as Es'. rewrite save_example_render in Es'. simpl.
      destruct (render _ _ root cnt i) as [[p c]|e']; [|done].
      destruct (FSFacts.write_cases p c w) as [[e' E]|(_ & _ & E)];
        simpl in Es'; rewrite E in Es'; [done|].
      injection Es' as <-.
      destruct (IH _ _ Hrun) as (recs & Hpre & -> & Hr).
      destruct (plan _ _ root rest (cnt + 1)) as [recs' r'] eqn:Ep. simpl in *.
      exists ((p, c) :: recs). split; [by apply prefix_cons|].
      split; [symmetry; apply apply_writes_cons|].
      destruct r as [c'|e'].
      * destruct Hr as (-> & -> & Hl & ->). repeat split; try done.
        -- simpl. by rewrite Hl.
        -- lia.
      * destruct Hr as (i' & Hi & Hs). exists i'. split; [done|].
        simpl length. rewrite <-Hs. f_equal. lia.
    + injection Hrun as <- <-.
      pose proof (save_example_raise _ _ _ _ _ _ Es) as ->.
      exists []. split; [apply prefix_nil|].
      rewrite apply_writes_nil. split; [done|].
      exists i. split; [done|]. simpl. by rewrite N.add_0_r.
Qed.

End ImageFacts.

(** ** The tree, computed *)

Lemma tree_dirs_labels :
  Forall (fun root => Forall (fun lab => label_dir root lab ∈ tree_dirs)
                             IMAGENETTE_LABELS) split_roots.
Proof. apply (bool_decide_unpack _). by vm_compute. Qed.

Lemma tree_dirs_length : Forall (fun p => (length p <= 7)%nat) tree_dirs.
Proof. apply (bool_decide_unpack _). by vm_compute. Qed.

Lemma tree_dirs_place :
  Forall (fun p => p ∈ prefixes DIR_ROOT \/
                   (take 5 p = PosixPath.components DIR_ROOT /\ (5 < length p)%nat))
         tree_dirs.
Proof. apply (bool_decide_unpack _). by vm_compute. Qed.

Lemma dir_root_in_tree : PosixPath.components DIR_ROOT ∈ tree_dirs.
Proof. apply (bool_decide_unpack _). by vm_compute. Qed.

Lemma split_root_components root :
  root ∈ split_roots ->
  exists split, PosixPath.components root = PosixPath.components DIR_ROOT ++ [split].
Proof.
  unfold split_roots. rewrite !elem_of_cons, elem_of_nil.
  intros [->|[->|[]]]; eexists; by vm_compute.
Qed.

Lemma label_dir_in_tree root lab :
  root ∈ split_roots -> lab ∈ IMAGENETTE_LABELS -> label_dir root lab ∈ tree_dirs.
Proof.
  intros Hr Hl. pose proof tree_dirs_labels as H.
  rewrite Forall_forall in H. specialize (H _ Hr).
  rewrite Forall_forall in H. by apply H.
Qed.

Lemma tree_built_labels w root lab :
  tree_built w -> root ∈ split_roots -> lab ∈ IMAGENETTE_LABELS ->
  FS.is_dir w (label_dir root lab).
Proof. intros H ? ?. by apply H, label_dir_in_tree. Qed.

(** ** Writing into the tree *)

Lemma image_path_snoc root lab cnt :
  image_path root lab cnt = label_dir root lab ++ [image_name cnt].
Proof. unfold image_path, label_dir. by rewrite <-app_assoc. Qed.

Lemma fs_apply_write p c w :
  fs (apply_writes [(p, c)] w) = <[p := File c]> (fs w).
Proof. reflexivity. Qed.

Lemma lookup_apply_writes_notin recs w p :
  p ∉ recs.*1 -> fs (apply_writes recs w) !! p = fs w !! p.
Proof.
  revert w. induction recs as [|[q c] recs IH]; intros w Hp; [done|].
  rewrite apply_writes_cons, IH, fs_apply_write.
  - apply lookup_insert_ne. intros ->. apply Hp. simpl. left.
  - intros H. apply Hp. simpl. by right.
Qed.

Lemma lookup_apply_writes_in recs w p c :
  NoDup recs.*1 -> (p, c) ∈ recs -> fs (apply_writes recs w) !! p = Some (File c).
Proof.
  revert w. induction recs as [|[q d] recs IH]; intros w Hnd Hin.
  { by apply elem_of_nil in Hin. }
  simpl in Hnd. apply NoDup_cons in Hnd as [Hq Hnd].
  rewrite apply_writes_cons.
  apply elem_of_cons in Hin as [[= <- <-]|Hin].
  - rewrite lookup_apply_writes_notin by done.
    rewrite fs_apply_write. apply lookup_insert_eq.
  - by apply IH.
Qed.

Lemma label_dir_ne_image_path root lab root' lab' cnt :
  root ∈ split_roots -> root' ∈ split_roots ->
  label_dir root' lab' <> image_path root lab cnt.
Proof.
  intros [s E]%split_root_components [s' E']%split_root_components.
  unfold label_dir, image_path. rewrite E, E'. intros H.
  apply (f_equal length) in H. rewrite !length_app in H. simpl in H. lia.
Qed.

Lemma ready_write w root lab cnt c :
  ready w -> root ∈ split_roots -> lab ∈ IMAGENETTE_LABELS ->
  ready (apply_writes [(image_path root lab cnt, c)] w).
Proof.
  intros [Hd Hs] Hr Hl. split.
  - intros root' lab' Hr' Hl'. specialize (Hd _ _ Hr' Hl').
    unfold FS.is_dir, label_dir in *. rewrite FSFacts.node_snoc in *.
    rewrite fs_apply_write, lookup_insert_ne; [done|].
    intros E. apply (label_dir_ne_image_path root lab root' lab' cnt Hr Hr').
    symmetry. exact E.
  - intros root' lab' name' Hr' Hl'. rewrite fs_apply_write.
    destruct (decide (image_path root lab cnt = label_dir root' lab' ++ [name'])) as [->|Hne].
    + rewrite lookup_insert_eq. discriminate.
    + rewrite lookup_insert_ne by done. by apply Hs.
Qed.

Lemma write_image_ready w root lab cnt c :
  ready w -> root ∈ split_roots -> lab ∈ IMAGENETTE_LABELS ->
  FS.write (image_path root lab cnt) c w
  = (Ok tt, apply_writes [(image_path root lab cnt, c)] w).
Proof.
  intros [Hd Hs] Hr Hl. apply FSFacts.write_succeeds.
  - rewrite image_path_snoc, FSFacts.node_snoc. by apply Hs.
  - rewrite image_path_snoc, FSFacts.parent_snoc. by apply Hd.
Qed.

Section ReadyFacts.

Context {ndarray image : Type}.
Variable fromarray : ndarray -> option image.
Variable png_encode : image -> option (list Byte.byte).

(** In a world that is ready a loop carries out its plan. *)
Lemma write_images_ready root it cnt w :
  ready w -> root ∈ split_roots ->
  write_images fromarray png_encode root it cnt w
  = (match (plan fromarray png_encode root it cnt).2 with
     | None => Ok (cnt + N.of_nat (length it))%N
     | Some e => Raise e
     end,
     apply_writes (plan fromarray png_encode root it cnt).1 w) /\
  ready (apply_writes (plan fromarray png_encode root it cnt).1 w).
Proof.
  intros Hw Hroot. revert cnt w Hw. induction it as [|i rest IH]; intros cnt w Hw.
  - simpl. rewrite apply_writes_nil, N.add_0_r. done.
  - simpl. rewrite bind_unfold, save_example_render.
    destruct (render _ _ root cnt i) as [[p c]|e] eqn:Er.
    + destruct (render_inv _ _ _ _ _ _ _ Hroot Er) as (lab & img & data & _ & Hl & _ & -> & ->).
      apply list_getitem_elem_of in Hl. simpl.
      rewrite write_image_ready by done.
      pose proof (ready_write _ _ _ cnt (Png data) Hw Hroot Hl) as Hw1.
      destruct (IH (cnt + 1)%N _ Hw1) as [E Hw2].
      destruct (plan _ _ root rest (cnt + 1)) as [recs r]. cbn [fst snd] in *.
      rewrite E, (apply_writes_cons _ recs). split; [|done].
      f_equal. destruct r; [done|]. f_equal. lia.
    + simpl. by rewrite apply_writes_nil.
Qed.

End ReadyFacts.

(** ** The first two stages on an empty destination *)

Lemma spec_paths_shape :
  train_spec_path = PosixPath.components DIR_ROOT ++ [train_spec_filename] /\
  test_spec_path = PosixPath.components DIR_ROOT ++ [test_spec_filename] /\
  (train_spec_path ∉ tree_dirs) /\ (test_spec_path ∉ tree_dirs).
Proof.
  split; [by vm_compute|]. split; [by vm_compute|].
  split; apply (bool_decide_unpack _); by vm_compute.
Qed.

Lemma empty_no_file fs0 p c :
  empty_destination fs0 -> p ∈ tree_dirs -> fs0 !! p <> Some (File c).
Proof.
  intros [Hpre Hbelow] Hp. pose proof tree_dirs_place as H.
  rewrite Forall_forall in H. destruct (H _ Hp) as [Hin|[Ht Hl]].
  - by apply Hpre.
  - rewrite <-(take_drop 5 p), Ht, Hbelow; [done|].
    intros E. apply (f_equal length) in E. rewrite length_drop in E. simpl in E. lia.
Qed.

Lemma is_dir_apply_writes recs w q :
  FS.is_dir w q -> q ∉ recs.*1 -> FS.is_dir (apply_writes recs w) q.
Proof.
  unfold FS.is_dir, FS.node. destruct q as [|c q]; [done|].
  intros Hd Hq. by rewrite lookup_apply_writes_notin.
Qed.

(** Two files written one after the other into an existing directory. *)
Lemma write_two d f1 f2 c1 c2 w :
  f1 <> f2 -> FS.is_dir w d ->
  fs w !! (d ++ [f1]) <> Some Dir -> fs w !! (d ++ [f2]) <> Some Dir ->
  (FS.write (d ++ [f1]) c1;; FS.write (d ++ [f2]) c2) w
  = (Ok tt, apply_writes [(d ++ [f1], c1); (d ++ [f2], c2)] w).
Proof.
  intros Hne Hd H1 H2. rewrite bind_unfold.
  rewrite (FSFacts.write_succeeds (d ++ [f1])).
  - rewrite (FSFacts.write_succeeds (d ++ [f2])).
    + by rewrite (apply_writes_cons _ [(d ++ [f2], c2)]).
    + rewrite FSFacts.node_snoc, fs_apply_write, lookup_insert_ne; [done|].
      intros E. by apply app_inj_tail in E as [_ ?].
    + rewrite FSFacts.parent_snoc. apply is_dir_apply_writes; [done|].
      cbn [fmap list_fmap fst]. rewrite list_elem_of_singleton.
      intros E. apply (f_equal length) in E. rewrite length_app in E. simpl in E. lia.
  - by rewrite FSFacts.node_snoc.
  - by rewrite FSFacts.parent_snoc.
Qed.

Lemma dump_specs_unfold now_train now_test w :
  dump_specs now_train now_test w
  = (FS.write train_spec_path (Json (train_spec now_train));;
     FS.write test_spec_path (Json (test_spec now_test))) w.
Proof. unfold train_spec_path, test_spec_path. reflexivity. Qed.

Lemma dump_specs_built now_train now_test w1 :
  tree_built w1 ->
  fs w1 !! train_spec_path <> Some Dir -> fs w1 !! test_spec_path <> Some Dir ->
  dump_specs now_train now_test w1 = (Ok tt, with_specs now_train now_test w1).
Proof.
  intros Hb Htr Hte. destruct spec_paths_shape as (Etr & Ete & _ & _).
  assert (FS.is_dir w1 (PosixPath.components DIR_ROOT)) as Hd.
  { apply Hb, dir_root_in_tree. }
  assert (train_spec_filename <> test_spec_filename) as Hne.
  { apply (bool_decide_unpack _). by vm_compute. }
  rewrite dump_specs_unfold. unfold with_specs, spec_writes.
  rewrite Etr, Ete in *.
  apply write_two.
  - exact Hne.
  - exact Hd.
  - exact Htr.
  - exact Hte.
Qed.

Lemma length_dir_root : length (PosixPath.components DIR_ROOT) = 5%nat.
Proof. reflexivity. Qed.

Lemma label_dir_under_root root lab :
  root ∈ split_roots ->
  exists split, label_dir root lab = PosixPath.components DIR_ROOT ++ [split; lab].
Proof.
  intros [s E]%split_root_components. exists s.
  unfold label_dir. by rewrite E, <-app_assoc.
Qed.

(** On an empty destination the tree gets built, the specs get written,
    and the world is ready for the images. *)
Lemma stages_empty now_train now_test fs0 :
  empty_destination fs0 ->
  exists w1,
    build_dirs (start fs0) = (Ok tt, w1) /\
    grows tree_dirs (start fs0) w1 /\
    tree_built w1 /\
    dump_specs now_train now_test w1 = (Ok tt, with_specs now_train now_test w1) /\
    ready (with_specs now_train now_test w1).
Proof.
  intros Hempty. pose proof Hempty as [Hpre Hbelow].
  destruct (BuildFacts.build_dirs_succeeds (start fs0)) as [w1 Hb].
  { intros p c Hp. by apply empty_no_file. }
  pose proof (BuildFacts.build_dirs_grows (start fs0)) as Hg. rewrite Hb in Hg.
  simpl in Hg. pose proof (BuildFacts.build_dirs_ok _ _ Hb) as Ht.
  destruct spec_paths_shape as (Etr & Ete & Ntr & Nte).
  assert (forall q, q <> [] -> PosixPath.components DIR_ROOT ++ q ∉ tree_dirs ->
                    fs w1 !! (PosixPath.components DIR_ROOT ++ q) = None) as Hnew.
  { intros q Hq Hnot. destruct Hg as [Hg _].
    destruct (Hg (PosixPath.components DIR_ROOT ++ q)) as [->|(_ & _ & ?)]; [|done].
    by apply Hbelow. }
  assert (forall root lab, root ∈ split_roots ->
            label_dir root lab ∉ [train_spec_path; test_spec_path]) as Hlab.
  { intros root lab Hr. destruct (label_dir_under_root root lab Hr) as [s E].
    rewrite E, Etr, Ete, !elem_of_cons, elem_of_nil.
    intros [H|[H|[]]]; apply (f_equal length) in H;
      rewrite !length_app in H; simpl in H; lia. }
  exists w1. split; [done|]. split; [done|]. split; [done|]. split.
  - apply dump_specs_built; [done|..].
    + rewrite Etr, Hnew; [done|done|]. rewrite <-Etr. exact Ntr.
    + rewrite Ete, Hnew; [done|done|]. rewrite <-Ete. exact Nte.
  - split.
    + intros root lab Hr Hl. unfold with_specs, spec_writes.
      apply is_dir_apply_writes; [by apply tree_built_labels|].
      by apply Hlab.
    + intros root lab name Hr Hl.
      destruct (label_dir_under_root root lab Hr) as [s E]. rewrite E, <-app_assoc.
      unfold with_specs, spec_writes. rewrite lookup_apply_writes_notin.
      * rewrite Hnew; [done|done|]. intros Hin.
        pose proof tree_dirs_length as Hlen. rewrite Forall_forall in Hlen.
        apply Hlen in Hin. rewrite length_app, length_dir_root in Hin.
        simpl in Hin. lia.
      * cbn [fmap list_fmap fst]. rewrite Etr, Ete, !elem_of_cons, elem_of_nil.
        intros [H|[H|[]]]; apply (f_equal length) in H;
          rewrite !length_app in H; simpl in H; lia.
Qed.

(** ** The plan of a run *)

Section PlanFacts.

Context {ndarray image : Type}.
Variable fromarray : ndarray -> option image.
Variable png_encode : image -> option (list Byte.byte).
Variable tfds_load : string -> string -> list (example ndarray).

Local Abbreviation render_ := (render fromarray png_encode).
Local Abbreviation plan_ := (plan fromarray png_encode).
Local Abbreviation plan_rounds_ := (plan_rounds fromarray png_encode).
Local Abbreviation plan_all_ := (plan_all fromarray png_encode tfds_load).

Lemma plan_as_rounds root it cnt :
  plan_ root it cnt = plan_rounds_ (map (pair root) it) cnt.
Proof.
  revert cnt. induction it as [|i rest IH]; intros cnt; [reflexivity|].
  simpl. destruct (render_ root cnt i) as [rec|e]; [|reflexivity].
  by rewrite IH.
Qed.

Lemma plan_rounds_app rs1 rs2 cnt :
  plan_rounds_ (rs1 ++ rs2) cnt =
  match (plan_rounds_ rs1 cnt).2 with
  | Some e => plan_rounds_ rs1 cnt
  | None =>
      ((plan_rounds_ rs1 cnt).1 ++ (plan_rounds_ rs2 (cnt + N.of_nat (length rs1))%N).1,
       (plan_rounds_ rs2 (cnt + N.of_nat (length rs1))%N).2)
  end.
Proof.
  revert cnt. induction rs1 as [|[root i] rest IH]; intros cnt.
  - simpl. rewrite N.add_0_r. by destruct (plan_rounds_ rs2 cnt).
  - simpl. destruct (render_ root cnt i) as [rec|e]; [|reflexivity].
    rewrite IH. destruct (plan_rounds_ rest (cnt + 1)) as [recs [e|]]; simpl; [done|].
    replace (cnt + 1 + N.of_nat (length rest))%N
      with (cnt + N.pos (Pos.of_succ_nat (length rest)))%N by lia.
    done.
Qed.

Lemma plan_all_as_rounds : plan_all_ = plan_rounds_ (rounds tfds_load) 0%N.
Proof.
  unfold plan_all, rounds. rewrite plan_rounds_app, !plan_as_rounds.
  rewrite length_map, N.add_0_l.
  destruct (plan_rounds_ (map (pair TRAIN_ROOT) _) 0) as [recs1 [e|]]; simpl; [done|].
  by destruct (plan_rounds_ (map (pair TEST_ROOT) _) _).
Qed.

(** The file at index [k] of a plan comes from round [k], which ran with
    counter [cnt + k]. *)
Lemma plan_rounds_lookup rs cnt k rec :
  (plan_rounds_ rs cnt).1 !! k = Some rec ->
  exists root i, rs !! k = Some (root, i) /\
                 render_ root (cnt + N.of_nat k)%N i = Ok rec.
Proof.
  revert cnt k. induction rs as [|[root i] rest IH]; intros cnt k; [done|].
  simpl. destruct (render_ root cnt i) as [rec0|e] eqn:Er; [|done].
  destruct (plan_rounds_ rest (cnt + 1)) as [recs r] eqn:Ep. simpl.
  destruct k as [|k]; simpl.
  - intros [= <-]. exists root, i. by rewrite N.add_0_r.
  - intros Hk. specialize (IH (cnt + 1)%N k). rewrite Ep in IH.
    destruct (IH Hk) as (root' & i' & Hl & Hr). exists root', i'. split; [done|].
    rewrite <-Hr. f_equal. lia.
Qed.

Lemma plan_rounds_length rs cnt :
  (length (plan_rounds_ rs cnt).1 <= length rs)%nat.
Proof.
  revert cnt. induction rs as [|[root i] rest IH]; intros cnt; [done|].
  simpl. destruct (render_ root cnt i) as [rec0|e]; [|simpl; lia].
  specialize (IH (cnt + 1)%N). destruct (plan_rounds_ rest (cnt + 1)). simpl in *. lia.
Qed.

(** A plan without exception covers every round; a plan with one stops at
    the round that raised it. *)
Lemma plan_rounds_end rs cnt :
  match (plan_rounds_ rs cnt).2 with
  | None => length (plan_rounds_ rs cnt).1 = length rs
  | Some e =>
      exists root i,
        rs !! length (plan_rounds_ rs cnt).1 = Some (root, i) /\
        render_ root (cnt + N.of_nat (length (plan_rounds_ rs cnt).1))%N i = Raise e
  end.
Proof.
  revert cnt. induction rs as [|[root i] rest IH]; intros cnt; [done|].
  simpl. destruct (render_ root cnt i) as [rec0|e] eqn:Er.
  - specialize (IH (cnt + 1)%N).
    destruct (plan_rounds_ rest (cnt + 1)) as [recs [e|]]; simpl in *.
    + destruct IH as (root' & i' & Hl & Hr). exists root', i'. split; [done|].
      rewrite <-Hr. f_equal. lia.
    + by rewrite IH.
  - simpl. exists root, i. by rewrite N.add_0_r.
Qed.

(** The first round that raises ends the plan. *)
Lemma plan_rounds_first_raise rs cnt k root i e :
  rs !! k = Some (root, i) ->
  (forall j root' i', (j < k)%nat -> rs !! j = Some (root', i') ->
     exists rec, render_ root' (cnt + N.of_nat j)%N i' = Ok rec) ->
  render_ root (cnt + N.of_nat k)%N i = Raise e ->
  (plan_rounds_ rs cnt).2 = Some e /\ length (plan_rounds_ rs cnt).1 = k.
Proof.
  revert cnt k. induction rs as [|[root0 i0] rest IH]; intros cnt k Hk Hbefore Hr; [done|].
  simpl. destruct k as [|k].
  - injection Hk as -> ->. rewrite N.add_0_r in Hr. by rewrite Hr.
  - destruct (Hbefore 0%nat root0 i0) as [rec Hrec]; [lia|done|].
    rewrite N.add_0_r in Hrec. rewrite Hrec.
    destruct (IH (cnt + 1)%N k) as [H2 Hl].
    + done.
    + intros j root' i' Hj Hlk. destruct (Hbefore (S j) root' i') as [rec' Hrec']; [lia|done|].
      exists rec'. rewrite <-Hrec'. f_equal. lia.
    + rewrite <-Hr. f_equal. lia.
    + destruct (plan_rounds_ rest (cnt + 1)) as [recs r]. simpl in *.
      by rewrite Hl.
Qed.

End PlanFacts.

(** ** The whole run *)

Section RunFacts.

Context {ndarray image : Type}.
Variable fromarray : ndarray -> option image.
Variable png_encode : image -> option (list Byte.byte).
Variable tfds_load : string -> string -> list (example ndarray).
Variables now_train now_test : string.

Local Abbreviation plan_all_ := (plan_all fromarray png_encode tfds_load).
Local Abbreviation script_ :=
  (script fromarray png_encode tfds_load now_train now_test).
Local Abbreviation write_all_images_ :=
  (write_all_images fromarray png_encode tfds_load).
Local Abbreviation write_images_ := (write_images fromarray png_encode).
Local Abbreviation save_example_ := (save_example fromarray png_encode).
Local Abbreviation train_set := (tfds_load "imagenette" "train").
Local Abbreviation test_set := (tfds_load "imagenette" "validation").

Lemma script_unfold w :
  script_ w =
  match build_dirs w with
  | (Raise e, w1) => (Raise e, w1)
  | (Ok _, w1) =>
      match dump_specs now_train now_test w1 with
      | (Raise e, w2) => (Raise e, w2)
      | (Ok _, w2) => write_all_images_ w2
      end
  end.
Proof. reflexivity. Qed.

Lemma write_all_images_unfold w :
  write_all_images_ w =
  match write_images_ TRAIN_ROOT train_set 0%N w with
  | (Raise e, w1) => (Raise e, w1)
  | (Ok c, w1) =>
      match write_images_ TEST_ROOT test_set c w1 with
      | (Raise e, w2) => (Raise e, w2)
      | (Ok _, w2) => (Ok tt, w2)
      end
  end.
Proof. reflexivity. Qed.

Lemma plan_all_unfold :
  plan_all_ =
  match (plan fromarray png_encode TRAIN_ROOT train_set 0%N).2 with
  | Some e => ((plan fromarray png_encode TRAIN_ROOT train_set 0%N).1, Some e)
  | None =>
      ((plan fromarray png_encode TRAIN_ROOT train_set 0%N).1 ++
       (plan fromarray png_encode TEST_ROOT test_set (N.of_nat (length train_set))).1,
       (plan fromarray png_encode TEST_ROOT test_set (N.of_nat (length train_set))).2)
  end.
Proof.
  unfold plan_all.
  destruct (plan _ _ TRAIN_ROOT _ _) as [recs1 [e|]]; [done|].
  by destruct (plan _ _ TEST_ROOT _ _).
Qed.

Lemma train_root_split : TRAIN_ROOT ∈ split_roots.
Proof. unfold split_roots. apply elem_of_cons. by left. Qed.

Lemma test_root_split : TEST_ROOT ∈ split_roots.
Proof. unfold split_roots. rewrite !elem_of_cons. right. by left. Qed.

(** In a world that is ready the two loops carry out the plan. *)
Lemma write_all_images_ready w :
  ready w ->
  write_all_images_ w =
  (match plan_all_.2 with None => Ok tt | Some e => Raise e end,
   apply_writes plan_all_.1 w).
Proof.
  intros Hw. rewrite write_all_images_unfold, plan_all_unfold.
  destruct (write_images_ready fromarray png_encode TRAIN_ROOT train_set 0%N w Hw
              train_root_split) as [-> Hw1].
  destruct (plan _ _ TRAIN_ROOT train_set 0) as [recs1 [e|]]; [done|].
  cbn [fst snd] in *. rewrite N.add_0_l.
  destruct (write_images_ready fromarray png_encode TEST_ROOT test_set
              (N.of_nat (length train_set)) _ Hw1 test_root_split) as [-> _].
  destruct (plan _ _ TEST_ROOT test_set _) as [recs2 [e|]]; cbn [fst snd];
    by rewrite apply_writes_app.
Qed.

(** Whatever the world, the two loops write the beginning of the plan. *)
Lemma write_all_images_run w r w' :
  write_all_images_ w = (r, w') ->
  exists recs,
    recs `prefix_of` plan_all_.1 /\
    w' = apply_writes recs w /\
    match r with
    | Ok _ => recs = plan_all_.1 /\ plan_all_.2 = None
    | Raise e =>
        exists root i,
          rounds tfds_load !! length recs = Some (root, i) /\
          save_example_ root (N.of_nat (length recs)) i w' = (Raise e, w')
    end.
Proof.
  rewrite write_all_images_unfold, plan_all_unfold. intros Hrun.
  destruct (write_images_ TRAIN_ROOT train_set 0%N w) as [[c|e] w1] eqn:E1.
  - destruct (write_images_run _ _ _ _ _ _ _ _ E1) as (recs1 & _ & -> & -> & -> & Hl1 & ->).
    rewrite N.add_0_l in Hrun. cbn [fst snd].
    destruct (write_images_ TEST_ROOT test_set _ _) as [[c|e] w2] eqn:E2.
    + injection Hrun as <- <-.
      destruct (write_images_run _ _ _ _ _ _ _ _ E2) as (recs2 & _ & -> & -> & -> & _).
      eexists. split; [done|]. split; [by rewrite apply_writes_app|done].
    + injection Hrun as <- <-.
      destruct (write_images_run _ _ _ _ _ _ _ _ E2) as (recs2 & Hpre & -> & i & Hi & Hs).
      exists ((plan fromarray png_encode TRAIN_ROOT train_set 0).1 ++ recs2).
      split; [by apply prefix_app|]. split; [by rewrite apply_writes_app|].
      exists TEST_ROOT, i. unfold rounds. rewrite length_app, Hl1. split.
      * rewrite lookup_app_r; rewrite length_map; [|lia].
        replace (length train_set + length recs2 - length train_set)%nat
          with (length recs2) by lia.
        by rewrite list_lookup_fmap, Hi.
      * rewrite <-Hs. f_equal. lia.
  - injection Hrun as <- <-.
    destruct (write_images_run _ _ _ _ _ _ _ _ E1) as (recs1 & Hpre & -> & i & Hi & Hs).
    exists recs1. split.
    { destruct (plan _ _ TRAIN_ROOT train_set 0).2; [done|].
      cbn [fst]. by apply prefix_app_r. }
    split; [done|]. exists TRAIN_ROOT, i. rewrite N.add_0_l in Hs. split; [|done].
    unfold rounds. rewrite lookup_app_l.
    + by rewrite list_lookup_fmap, Hi.
    + rewrite length_map. by eapply lookup_lt_Some.
Qed.

(** A run on an empty destination: the tree, the specs, the plan. *)
Lemma run_empty fs0 :
  empty_destination fs0 ->
  exists w1,
    build_dirs (start fs0) = (Ok tt, w1) /\
    grows tree_dirs (start fs0) w1 /\
    tree_built w1 /\
    script_ (start fs0) =
    (match plan_all_.2 with None => Ok tt | Some e => Raise e end,
     apply_writes plan_all_.1 (with_specs now_train now_test w1)).
Proof.
  intros (w1 & Hb & Hg & Ht & Hd & Hr)%(stages_empty now_train now_test).
  exists w1. split; [done|]. split; [done|]. split; [done|].
  rewrite script_unfold, Hb, Hd. by apply write_all_images_ready.
Qed.

End RunFacts.

(** ** Directories stay *)

Lemma keeps_dirs_ret {A} (a : A) : keeps_dirs (mret a : M A).
Proof. by intros w q. Qed.

Lemma keeps_dirs_lift {A} (o : outcome A) : keeps_dirs (lift o).
Proof. by intros w q. Qed.

Lemma keeps_dirs_bind {A B} (m : M A) (f : A -> M B) :
  keeps_dirs m -> (forall a, keeps_dirs (f a)) -> keeps_dirs (m ≫= f).
Proof.
  intros Hm Hf w q Hq. rewrite bind_unfold. specialize (Hm w q Hq).
  destruct (m w) as [[a|e] w1]; [by apply Hf|done].
Qed.

Lemma keeps_dirs_write p c : keeps_dirs (FS.write p c).
Proof.
  intros w q Hq. destruct (FSFacts.write_cases p c w) as [[e ->]|(Hp & _ & ->)]; [done|].
  apply is_dir_apply_writes; [done|]. cbn [fmap list_fmap fst].
  rewrite list_elem_of_singleton. by intros ->.
Qed.

Lemma keeps_dirs_build : keeps_dirs build_dirs.
Proof.
  intros w q Hq. eapply FSFacts.grows_is_dir; [apply BuildFacts.build_dirs_grows|done].
Qed.

Lemma keeps_dirs_dump now_train now_test : keeps_dirs (dump_specs now_train now_test).
Proof. apply keeps_dirs_bind; [|intros _]; apply keeps_dirs_write. Qed.

(** ** The specs stage, whatever the world *)

Lemma dump_specs_run now_train now_test w r w' :
  dump_specs now_train now_test w = (r, w') ->
  exists specs,
    specs `prefix_of` spec_writes now_train now_test /\
    w' = apply_writes specs w /\
    match r with
    | Ok _ => specs = spec_writes now_train now_test
    | Raise _ => specs <> spec_writes now_train now_test
    end.
Proof.
  rewrite dump_specs_unfold, bind_unfold. unfold spec_writes.
  destruct (FSFacts.write_cases train_spec_path (Json (train_spec now_train)) w)
    as [[e ->]|(_ & _ & ->)].
  - intros [= <- <-]. exists []. rewrite apply_writes_nil.
    split; [apply prefix_nil|done].
  - destruct (FSFacts.write_cases test_spec_path (Json (test_spec now_test))
                (apply_writes [(train_spec_path, Json (train_spec now_train))] w))
      as [[e ->]|(_ & _ & ->)].
    + intros [= <- <-]. exists [(train_spec_path, Json (train_spec now_train))].
      split; [by apply prefix_cons, prefix_nil|]. split; [done|].
      intros E. apply (f_equal length) in E. done.
    + intros [= <- <-]. eexists. split; [done|]. split; [|done].
      by rewrite (apply_writes_cons _ [_]).
Qed.

(** ** What a trace says about images *)

Lemma written_images_app tr1 tr2 :
  written_images (tr1 ++ tr2) = written_images tr1 ++ written_images tr2.
Proof. apply omap_app. Qed.

Lemma written_images_mkdirs evs : Forall is_mkdir evs -> written_images evs = [].
Proof.
  induction 1 as [|ev evs Hev _ IH]; [done|].
  destruct ev; [|done]. exact IH.
Qed.

Lemma written_images_writes recs :
  Forall (fun rec => is_png_content rec.2) recs ->
  written_images (map write_event recs) = recs.
Proof.
  induction 1 as [|[p c] recs Hc _ IH]; [done|].
  destruct c as [|d]; [done|].
  change (written_images (map write_event ((p, Png d) :: recs)))
    with ((p, Png d) :: written_images (map write_event recs)).
  by rewrite IH.
Qed.

Lemma written_images_specs now_train now_test specs :
  specs `prefix_of` spec_writes now_train now_test ->
  written_images (map write_event specs) = [].
Proof.
  intros [rest E]. unfold spec_writes in E.
  destruct specs as [|[p1 c1] [|[p2 c2] [|? ?]]]; [done|..].
  - injection E as <- <- _. done.
  - injection E as <- <- <- <- _. done.
  - apply (f_equal length) in E. rewrite length_app in E. simpl in E. lia.
Qed.

(** ** File names are counters *)

Lemma append_inj_l s1 s2 t : s1 +:+ t = s2 +:+ t -> s1 = s2.
Proof.
  intros E.
  assert (String.length s1 = String.length s2) as Hl.
  { apply (f_equal String.length) in E.
    rewrite !PyStrFacts.length_append in E. lia. }
  revert s2 E Hl. induction s1 as [|c s1 IH]; intros [|c2 s2] E Hl; try done.
  rewrite !PyStrFacts.append_cons in E. injection E as -> E.
  f_equal. apply IH; [done|]. simpl in Hl. lia.
Qed.

Lemma image_name_inj j k : image_name j = image_name k -> j = k.
Proof. intros E%append_inj_l. by apply PyStrFacts.format_inj. Qed.

Lemma last_image_path root lab cnt :
  last (image_path root lab cnt) = Some (image_name cnt).
Proof. rewrite image_path_snoc. apply last_snoc. Qed.

Lemma parent_image_path root lab cnt :
  FS.parent (image_path root lab cnt) = label_dir root lab.
Proof. rewrite image_path_snoc. apply FSFacts.parent_snoc. Qed.

Section PlanPaths.

Context {ndarray image : Type}.
Variable fromarray : ndarray -> option image.
Variable png_encode : image -> option (list Byte.byte).
Variable tfds_load : string -> string -> list (example ndarray).

Local Abbreviation plan_all_ := (plan_all fromarray png_encode tfds_load).
Local Abbreviation train_set := (tfds_load "imagenette" "train").
Local Abbreviation test_set := (tfds_load "imagenette" "validation").

(** A round is a train example, numbered from 0, or a test example,
    numbered from the number of train examples. *)
Lemma rounds_lookup k root i :
  rounds tfds_load !! k = Some (root, i) ->
  (root = TRAIN_ROOT /\ train_set !! k = Some i) \/
  (root = TEST_ROOT /\ (length train_set <= k)%nat /\
   test_set !! (k - length train_set)%nat = Some i).
Proof.
  unfold rounds. intros H. apply lookup_app_Some in H as [H|[Hk H]].
  - left. rewrite list_lookup_fmap in H.
    destruct (train_set !! k) as [i'|]; [|done]. by injection H as <- <-.
  - right. rewrite length_map in Hk, H. rewrite list_lookup_fmap in H.
    destruct (test_set !! _) as [i'|]; [|done]. by injection H as <- <-.
Qed.

Lemma rounds_root k root i :
  rounds tfds_load !! k = Some (root, i) -> root ∈ split_roots.
Proof.
  intros [[-> _]|[-> _]]%rounds_lookup;
    [apply train_root_split|apply test_root_split].
Qed.

(** The file at index [k] of the plan: round [k], counter [k]. *)
Lemma plan_all_lookup k p c :
  plan_all_.1 !! k = Some (p, c) ->
  exists root i lab img data,
    rounds tfds_load !! k = Some (root, i) /\
    fromarray (ex_image i) = Some img /\
    list_getitem IMAGENETTE_LABELS (ex_label i) = Ok lab /\
    png_encode img = Some data /\
    p = image_path root lab (N.of_nat k) /\ c = Png data.
Proof.
  rewrite plan_all_as_rounds. intros H.
  apply plan_rounds_lookup in H as (root & i & Hk & Hr). rewrite N.add_0_l in Hr.
  apply render_inv in Hr as (lab & img & data & ? & ? & ? & ? & ?);
    [|by eapply rounds_root].
  by exists root, i, lab, img, data.
Qed.

Lemma plan_all_png : Forall (fun rec => is_png_content rec.2) plan_all_.1.
Proof.
  apply Forall_lookup_2. intros k [p c] H.
  apply plan_all_lookup in H as (? & ? & ? & ? & ? & _ & _ & _ & _ & _ & ->). done.
Qed.

Lemma plan_all_name k p c :
  plan_all_.1 !! k = Some (p, c) -> last p = Some (image_name (N.of_nat k)).
Proof.
  intros (? & ? & ? & ? & ? & _ & _ & _ & _ & -> & _)%plan_all_lookup.
  apply last_image_path.
Qed.

(** No two files of the plan have the same path, or the same name. *)
Lemma plan_all_nodup : NoDup plan_all_.1.*1.
Proof.
  apply NoDup_alt. intros j k p Hj Hk.
  rewrite list_lookup_fmap in Hj, Hk.
  destruct (plan_all_.1 !! j) as [[pj cj]|] eqn:Ej; [|done].
  destruct (plan_all_.1 !! k) as [[pk ck]|] eqn:Ek; [|done].
  simpl in Hj, Hk. injection Hj as ->. injection Hk as ->.
  apply plan_all_name in Ej, Ek. rewrite Ej in Ek. injection Ek as E.
  apply image_name_inj in E. lia.
Qed.

Lemma plan_all_length : (length plan_all_.1 <= length (rounds tfds_load))%nat.
Proof. rewrite plan_all_as_rounds. apply plan_rounds_length. Qed.

End PlanPaths.

(** ** The shape of every run *)

Section RunShape.

Context {ndarray image : Type}.
Variable fromarray : ndarray -> option image.
Variable png_encode : image -> option (list Byte.byte).
Variable tfds_load : string -> string -> list (example ndarray).
Variables now_train now_test : string.

Local Abbreviation plan_all_ := (plan_all fromarray png_encode tfds_load).
Local Abbreviation script_ :=
  (script fromarray png_encode tfds_load now_train now_test).
Local Abbreviation save_example_ := (save_example fromarray png_encode).

Lemma keeps_dirs_save root cnt i : keeps_dirs (save_example_ root cnt i).
Proof.
  intros w q Hq. rewrite save_example_render.
  destruct (render _ _ root cnt i) as [[p c]|e]; [|done].
  by apply keeps_dirs_write.
Qed.

Lemma keeps_dirs_write_images root it cnt :
  keeps_dirs (write_images fromarray png_encode root it cnt).
Proof.
  revert cnt. induction it as [|i rest IH]; intros cnt; [apply keeps_dirs_ret|].
  apply keeps_dirs_bind; [apply keeps_dirs_save|]. intros _. apply IH.
Qed.

Lemma keeps_dirs_write_all :
  keeps_dirs (write_all_images fromarray png_encode tfds_load).
Proof.
  apply keeps_dirs_bind; [apply keeps_dirs_write_images|]. intros c.
  apply keeps_dirs_bind; [apply keeps_dirs_write_images|]. intros _.
  apply keeps_dirs_ret.
Qed.

(** How far a run got: the directories it made, the specs and the images
    it wrote, and what ended it. *)
Lemma run_shape fs0 r w' :
  script_ (start fs0) = (r, w') ->
  exists w1 specs recs,
    grows tree_dirs (start fs0) w1 /\
    specs `prefix_of` spec_writes now_train now_test /\
    recs `prefix_of` plan_all_.1 /\
    w' = apply_writes recs (apply_writes specs w1) /\
    (forall q, FS.is_dir w1 q -> FS.is_dir w' q) /\
    (specs <> [] \/ recs <> [] -> build_dirs (start fs0) = (Ok tt, w1)) /\
    (recs <> [] -> specs = spec_writes now_train now_test) /\
    match r with
    | Ok _ =>
        build_dirs (start fs0) = (Ok tt, w1) /\
        specs = spec_writes now_train now_test /\
        recs = plan_all_.1 /\ plan_all_.2 = None
    | Raise e =>
        (build_dirs (start fs0) = (Raise e, w1) /\ specs = [] /\ recs = []) \/
        (build_dirs (start fs0) = (Ok tt, w1) /\
         specs <> spec_writes now_train now_test /\ recs = []) \/
        (build_dirs (start fs0) = (Ok tt, w1) /\
         specs = spec_writes now_train now_test /\
         exists root i,
           rounds tfds_load !! length recs = Some (root, i) /\
           save_example_ root (N.of_nat (length recs)) i w' = (Raise e, w'))
    end.
Proof.
  rewrite script_unfold. intros Hrun.
  pose proof (BuildFacts.build_dirs_grows (start fs0)) as Hg.
  destruct (build_dirs (start fs0)) as [[[]|e] w1] eqn:Eb; simpl in Hg.
  2:{ injection Hrun as <- <-. exists w1, [], [].
      rewrite !apply_writes_nil. split; [done|].
      split; [apply prefix_nil|]. split; [apply prefix_nil|].
      split; [done|]. split; [done|]. split; [by intros [?|?]|].
      split; [done|]. by left. }
  destruct (dump_specs now_train now_test w1) as [[[]|e] w2] eqn:Ed.
  2:{ injection Hrun as <- <-.
      pose proof (keeps_dirs_dump now_train now_test w1) as Hk. rewrite Ed in Hk.
      apply dump_specs_run in Ed as (specs & Hpre & -> & Hne).
      exists w1, specs, []. rewrite apply_writes_nil.
      split; [done|]. split; [done|]. split; [apply prefix_nil|].
      split; [done|]. split; [done|]. split; [done|].
      split; [done|]. right. by left. }
  pose proof (keeps_dirs_dump now_train now_test w1) as Hk1. rewrite Ed in Hk1.
  pose proof (keeps_dirs_write_all w2) as Hk2. rewrite Hrun in Hk2.
  apply dump_specs_run in Ed as (specs & Hpre & -> & ->).
  apply write_all_images_run in Hrun as (recs & Hrecs & -> & Hr).
  exists w1, (spec_writes now_train now_test), recs.
  split; [done|]. split; [done|]. split; [done|]. split; [done|].
  split; [intros q Hq; by apply Hk2, Hk1|]. split; [done|]. split; [done|].
  destruct r as [[]|e].
  - by destruct Hr as [-> ->].
  - right. right. done.
Qed.

(** The images a run wrote, as its trace has them, are the beginning of
    the plan. *)
Lemma run_written fs0 r w' :
  script_ (start fs0) = (r, w') ->
  written_images (trace w') `prefix_of` plan_all_.1 /\
  (r = Ok tt -> written_images (trace w') = plan_all_.1).
Proof.
  intros (w1 & specs & recs & [_ (evs & Ht & Hm)] & Hs & Hr & -> & _ & _ & _ & Hend)%run_shape.
  assert (written_images (trace (apply_writes recs (apply_writes specs w1))) = recs) as ->.
  { simpl in *. rewrite Ht, !written_images_app.
    rewrite (written_images_mkdirs _ Hm), (written_images_specs _ _ _ Hs).
    simpl. apply written_images_writes.
    pose proof (plan_all_png fromarray png_encode tfds_load) as Hp.
    destruct Hr as [rest E]. rewrite E in Hp. by apply Forall_app in Hp as [? _]. }
  split; [done|]. intros ->. by destruct Hend as (_ & _ & -> & _).
Qed.

End RunShape.

(** ** The files in a directory after a series of writes *)

Lemma last_write_snoc recs rec p :
  last_write (recs ++ [rec]) p =
  if bool_decide (rec.1 = p) then Some rec.2 else last_write recs p.
Proof. unfold last_write. by rewrite foldl_app. Qed.

Lemma lookup_apply_writes recs w p :
  fs (apply_writes recs w) !! p =
  match last_write recs p with
  | Some c => Some (File c)
  | None => fs w !! p
  end.
Proof.
  induction recs as [|[q c] recs IH] using rev_ind; [done|].
  rewrite apply_writes_app, fs_apply_write, last_write_snoc. simpl.
  case_bool_decide as E.
  - subst. apply lookup_insert_eq.
  - by rewrite lookup_insert_ne.
Qed.

Lemma parent_inv p d : p <> [] -> FS.parent p = d -> exists name, p = d ++ [name].
Proof.
  intros Hp Hd. destruct (exists_last Hp) as (l & a & E).
  exists a. rewrite <-Hd, E. by rewrite FSFacts.parent_snoc.
Qed.

(** In a directory that had no entry, the PNG files are those the writes
    put there. *)
Lemma png_files_in_writes recs w d :
  (forall name, fs w !! (d ++ [name]) = None) ->
  png_files_in (apply_writes recs w) d = png_files_in (apply_writes recs (start ∅)) d.
Proof.
  intros Hvac. unfold png_files_in. apply map_eq. intros p.
  rewrite !map_lookup_filter, !lookup_apply_writes.
  destruct (last_write recs p) as [c|]; [done|].
  simpl. rewrite lookup_empty.
  destruct (fs w !! p) as [e|] eqn:E; [|done]. simpl.
  case_guard as H; [|done]. simpl in H. destruct H as (Hp & Hd & Hpng).
  destruct (parent_inv _ _ Hp Hd) as [name Ep]. by rewrite Ep, Hvac in E.
Qed.

(** On an empty destination the label directories are empty when the
    loops start. *)
Lemma stages_empty_vacant now_train now_test fs0 w1 root lab name :
  empty_destination fs0 ->
  build_dirs (start fs0) = (Ok tt, w1) ->
  root ∈ split_roots ->
  fs (with_specs now_train now_test w1) !! (label_dir root lab ++ [name]) = None.
Proof.
  intros [_ Hbelow] Hb Hr.
  pose proof (BuildFacts.build_dirs_grows (start fs0)) as [Hg _]. rewrite Hb in Hg.
  simpl in Hg.
  destruct spec_paths_shape as (Etr & Ete & _ & _).
  destruct (label_dir_under_root root lab Hr) as [s E]. rewrite E, <-app_assoc.
  unfold with_specs, spec_writes. rewrite lookup_apply_writes_notin.
  - destruct (Hg (PosixPath.components DIR_ROOT ++ [s; lab] ++ [name]))
      as [->|(_ & _ & Hin)].
    + by apply Hbelow.
    + pose proof tree_dirs_length as Hlen. rewrite Forall_forall in Hlen.
      apply Hlen in Hin. rewrite length_app, length_dir_root in Hin.
      simpl in Hin. lia.
  - cbn [fmap list_fmap fst]. rewrite Etr, Ete, !elem_of_cons, elem_of_nil.
    intros [H|[H|[]]]; apply (f_equal length) in H;
      rewrite !length_app in H; simpl in H; lia.
Qed.

(** * The claims *)

(** ** The spec documents *)

Lemma spec_data_entries split :
  exists entries,
    spec_data split = JList entries /\ length entries = 10%nat /\
    forall i label, IMAGENETTE_LABELS !! i = Some label ->
                    entries !! i = Some
                      (JDict [("label", JInt (Z.of_nat i));
                              ("labelName", JStr label);
                              ("directory", JStr (PosixPath.join DIR_NAME [split; label]))]).
Proof.
  eexists. split; [reflexivity|]. split; [reflexivity|].
  intros i label Hl. rewrite list_lookup_imap, Hl. reflexivity.
Qed.

Lemma spec_directory_train :
  Forall (fun label => PosixPath.join DIR_NAME ["train"; label]
                       = "imagenette/" +:+ "train" +:+ "/" +:+ label)
         IMAGENETTE_LABELS.
Proof. apply (bool_decide_unpack _). by vm_compute. Qed.

Lemma spec_directory_test :
  Forall (fun label => PosixPath.join DIR_NAME ["test"; label]
                       = "imagenette/" +:+ "test" +:+ "/" +:+ label)
         IMAGENETTE_LABELS.
Proof. apply (bool_decide_unpack _). by vm_compute. Qed.

(** C2. Each of the two spec documents the run builds has numModelClasses
    10, imageProperties.dimensions "224,224", imageProperties.colorspace
    "rgb", and a data array of exactly 10 entries, entry [i] holding the
    label [i], the [i]-th name of the label list (index 0 is "tench") and
    the relative path of that label's directory in the split. *)
Theorem C2_spec_documents (now_train now_test : string) :
  spec_document_ok "train" (train_spec now_train) /\
  spec_document_ok "test" (test_spec now_test) /\
  IMAGENETTE_LABELS !! 0%nat = Some "tench".
Proof.
  split; [|split; [|reflexivity]].
  - split; [by vm_compute|]. split; [by vm_compute|]. split; [by vm_compute|].
    destruct (spec_data_entries "train") as (entries & E & Hlen & Hent).
    exists entries. split; [|split; [done|]].
    + rewrite <-E. by vm_compute.
    + intros i label Hl. rewrite (Hent i label Hl). unfold spec_entry.
      pose proof spec_directory_train as H. rewrite Forall_forall in H.
      rewrite H; [done|]. by eapply list_elem_of_lookup_2.
  - split; [by vm_compute|]. split; [by vm_compute|]. split; [by vm_compute|].
    destruct (spec_data_entries "test") as (entries & E & Hlen & Hent).
    exists entries. split; [|split; [done|]].
    + rewrite <-E. by vm_compute.
    + intros i label Hl. rewrite (Hent i label Hl). unfold spec_entry.
      pose proof spec_directory_test as H. rewrite Forall_forall in H.
      rewrite H; [done|]. by eapply list_elem_of_lookup_2.
Qed.

(** ** The label lookup *)

Lemma components_image_path' root lab cnt :
  root ∈ split_roots -> lab ∈ IMAGENETTE_LABELS ->
  PosixPath.components
    (PosixPath.join DEST_ROOT [root; lab; PyStr.format_0gt6d cnt +:+ ".png"])
  = image_path root lab cnt.
Proof. apply components_image_path. Qed.

Section LabelLookup.

Context {ndarray image : Type}.
Variable fromarray : ndarray -> option image.
Variable png_encode : image -> option (list Byte.byte).

(** C10. The loop body indexes the list of 10 label names with the
    example's label as it is. For a label from 0 to 9 the image goes to the
    directory of the name at that index; for a label from -10 to -1 the
    lookup counts from the end of the list and the image is written, with
    no error, to the directory of the name at index label + 10; for any
    other label, and only then, the round raises IndexError and nothing is
    written. *)
Theorem C10_label_lookup (root : string) (cnt : N) (i : example ndarray)
    (img : image) (data : list Byte.byte) (w : world) :
  root ∈ split_roots -> ready w ->
  fromarray (ex_image i) = Some img -> png_encode img = Some data ->
  (0 <= ex_label i <= 9 ->
     exists lab, IMAGENETTE_LABELS !! Z.to_nat (ex_label i) = Some lab /\
       save_example fromarray png_encode root cnt i w
       = (Ok tt, apply_writes [(image_path root lab cnt, Png data)] w)) /\
  (-10 <= ex_label i <= -1 ->
     exists lab, IMAGENETTE_LABELS !! Z.to_nat (ex_label i + 10) = Some lab /\
       save_example fromarray png_encode root cnt i w
       = (Ok tt, apply_writes [(image_path root lab cnt, Png data)] w)) /\
  (ex_label i < -10 \/ 9 < ex_label i <->
     save_example fromarray png_encode root cnt i w = (Raise IndexError, w)).
Proof.
  intros Hroot Hw Himg Hdata.
  assert (forall lab, list_getitem IMAGENETTE_LABELS (ex_label i) = Ok lab ->
            save_example fromarray png_encode root cnt i w
            = (Ok tt, apply_writes [(image_path root lab cnt, Png data)] w)) as Hok.
  { intros lab Hl. rewrite save_example_render. unfold render.
    rewrite Himg, Hl, Hdata. cbn [fst snd].
    rewrite components_image_path' by (done || by eapply list_getitem_elem_of).
    apply write_image_ready; [done..|]. by eapply list_getitem_elem_of. }
  assert (length IMAGENETTE_LABELS = 10%nat) as Hlen by reflexivity.
  split; [|split; [|split]].
  - intros Hr. destruct (list_getitem_nonneg IMAGENETTE_LABELS (ex_label i)) as (lab & ? & ?).
    { rewrite Hlen. lia. }
    exists lab. split; [done|]. by apply Hok.
  - intros Hr. destruct (list_getitem_neg IMAGENETTE_LABELS (ex_label i)) as (lab & Hl & ?).
    { rewrite Hlen. lia. }
    exists lab. split; [|by apply Hok]. rewrite Hlen in Hl. exact Hl.
  - intros Hr. rewrite save_example_render. unfold render.
    rewrite Himg, list_getitem_out; [done|]. rewrite Hlen. lia.
  - intros Hraise.
    destruct (list_getitem IMAGENETTE_LABELS (ex_label i)) as [lab|e] eqn:El.
    + rewrite (Hok lab eq_refl) in Hraise. discriminate.
    + apply list_getitem_raises in El as [_ El]. rewrite Hlen in El. lia.
Qed.

End LabelLookup.

(** ** The directory tree *)

Lemma elem_of_concat_map {A B} (f : A -> list B) (l : list A) x y :
  x ∈ l -> y ∈ f x -> y ∈ concat (map f l).
Proof.
  induction l as [|a l IH]; intros Hx Hy; [by apply elem_of_nil in Hx|].
  simpl. apply elem_of_app. apply elem_of_cons in Hx as [->|Hx]; [by left|].
  right. by apply IH.
Qed.

Lemma tree_dirs_roots :
  Forall (fun name => PosixPath.components name ∈ tree_dirs)
         [DEST_ROOT; DIR_ROOT; TRAIN_ROOT; TEST_ROOT].
Proof. apply (bool_decide_unpack _). by vm_compute. Qed.

(** Creating a directory a second time changes nothing and is no error. *)
Lemma makedirs_twice name w w' :
  FS.makedirs name w = (Ok tt, w') -> FS.makedirs name w' = (Ok tt, w').
Proof.
  intros H. apply FSFacts.makedirs_from_noop. intros p Hp.
  by eapply FSFacts.makedirs_from_ok.
Qed.

Lemma empty_destination_empty : empty_destination ∅.
Proof. split; intros; by rewrite lookup_empty. Qed.

Lemma demo_tree_ready : ready Demo.tree.
Proof.
  destruct (stages_empty Demo.now_train Demo.now_test ∅ empty_destination_empty)
    as (w1 & Hb & _ & _ & _ & Hr).
  unfold Demo.tree. rewrite Hb. exact Hr.
Qed.

Section DirectoryTree.

Context {ndarray image : Type}.
Variable fromarray : ndarray -> option image.
Variable png_encode : image -> option (list Byte.byte).
Variable tfds_load : string -> string -> list (example ndarray).
Variables now_train now_test : string.

(** C1. After a successful run the directories root, root/train, root/test
    and, for each of the 10 label names, root/train/{label} and
    root/test/{label} exist (so does the destination root above them).
    Creating a directory that exists is not an error: each [os.makedirs]
    call of the script, run again, succeeds and changes nothing, and so
    does the whole directory stage of a rerun. *)
Theorem C1_directory_tree (fs0 : gmap (list string) entry) (w' : world) :
  script fromarray png_encode tfds_load now_train now_test (start fs0) = (Ok tt, w') ->
  (FS.is_dir w' (PosixPath.components DEST_ROOT) /\
   FS.is_dir w' (PosixPath.components DIR_ROOT) /\
   FS.is_dir w' (PosixPath.components TRAIN_ROOT) /\
   FS.is_dir w' (PosixPath.components TEST_ROOT)) /\
  (forall lab, lab ∈ IMAGENETTE_LABELS ->
     FS.is_dir w' (label_dir TRAIN_ROOT lab) /\
     FS.is_dir w' (label_dir TEST_ROOT lab)) /\
  (forall name, name ∈ dir_names -> FS.makedirs name w' = (Ok tt, w')) /\
  build_dirs w' = (Ok tt, w').
Proof.
  intros (w1 & specs & recs & _ & _ & _ & _ & Hkeep & _ & _ & Hb & _)%run_shape.
  assert (tree_built w') as Ht.
  { intros p Hp. apply Hkeep. by apply (BuildFacts.build_dirs_ok _ _ Hb). }
  pose proof tree_dirs_roots as Hroots. rewrite !Forall_cons in Hroots.
  destruct Hroots as (H1 & H2 & H3 & H4 & _).
  split; [split; [|split; [|split]]; apply Ht; assumption|].
  split; [|split].
  - intros lab Hlab. split; apply Ht, label_dir_in_tree; try done.
    + apply train_root_split.
    + apply test_root_split.
  - intros name Hname. apply FSFacts.makedirs_from_noop. intros p Hp.
    apply Ht. by apply (elem_of_concat_map prefixes dir_names name).
  - by apply BuildFacts.build_dirs_noop.
Qed.

End DirectoryTree.

(** The run of the small data set on an empty file system. *)
Local Abbreviation demo_run :=
  (script Demo.fromarray Demo.png_encode Demo.load Demo.now_train Demo.now_test
          (start ∅)).

Lemma pair_eta {A B} (x : A * B) (a : A) : x.1 = a -> x = (a, x.2).
Proof. destruct x. simpl. by intros ->. Qed.

Lemma demo_run_ok : demo_run = (Ok tt, demo_run.2).
Proof. apply pair_eta. vm_compute. reflexivity. Qed.

Lemma C1_directory_tree_witness :
  demo_run = (Ok tt, demo_run.2) /\
  FS.is_dir demo_run.2 (label_dir TRAIN_ROOT "tench") /\
  build_dirs demo_run.2 = (Ok tt, demo_run.2).
Proof.
  split; [exact demo_run_ok|].
  pose proof (C1_directory_tree Demo.fromarray Demo.png_encode Demo.load
                Demo.now_train Demo.now_test ∅ _ demo_run_ok) as H.
  destruct H as (_ & Hlab & _ & Hbuild).
  split; [|exact Hbuild].
  assert ("tench" ∈ IMAGENETTE_LABELS) as Hin.
  { apply (bool_decide_unpack _). vm_compute. exact I. }
  exact (proj1 (Hlab "tench" Hin)).
Defined.

Lemma C10_label_lookup_witness :
  TRAIN_ROOT ∈ split_roots /\ ready Demo.tree /\
  Demo.fromarray 5%nat = Some 5%nat /\
  Demo.png_encode 5%nat = Some (replicate 5 Byte.x2a) /\
  save_example Demo.fromarray Demo.png_encode TRAIN_ROOT 7 (Example_ 5%nat (-1)) Demo.tree
  = (Ok tt, apply_writes [(image_path TRAIN_ROOT "parachute" 7,
                           Png (replicate 5 Byte.x2a))] Demo.tree).
Proof.
  split; [apply train_root_split|]. split; [apply demo_tree_ready|].
  split; [reflexivity|]. split; [reflexivity|].
  destruct (C10_label_lookup Demo.fromarray Demo.png_encode TRAIN_ROOT 7
              (Example_ 5%nat (-1)) 5%nat (replicate 5 Byte.x2a) Demo.tree
              train_root_split demo_tree_ready eq_refl eq_refl)
    as (_ & Hneg & _).
  destruct Hneg as (lab & Hlab & Hsave); [simpl; lia|].
  injection Hlab as <-. exact Hsave.
Defined.

(** * Further properties of the script *)

(** ** The counter and the place of every image *)

Lemma omap_indexed {A B} (g : A -> option B) (h : nat -> B) (l : list A) :
  (forall k x, l !! k = Some x -> g x = Some (h k)) ->
  omap g l = imap (fun k _ => h k) l.
Proof.
  revert h. induction l as [|a l IH]; intros h Hg; [done|].
  simpl. rewrite (Hg 0%nat a eq_refl). f_equal.
  apply (IH (fun k => h (S k))). intros k x Hk. by apply (Hg (S k)).
Qed.

Lemma image_path_unfold root lab cnt :
  image_path root lab cnt
  = PosixPath.components root ++ [lab; PyStr.format_0gt6d cnt +:+ ".png"].
Proof. reflexivity. Qed.

Section Placement.

Context {ndarray image : Type}.
Variable fromarray : ndarray -> option image.
Variable png_encode : image -> option (list Byte.byte).
Variable tfds_load : string -> string -> list (example ndarray).
Variables now_train now_test : string.

Local Abbreviation plan_all_ := (plan_all fromarray png_encode tfds_load).
Local Abbreviation script_ :=
  (script fromarray png_encode tfds_load now_train now_test).
Local Abbreviation train_set := (tfds_load "imagenette" "train").
Local Abbreviation test_set := (tfds_load "imagenette" "validation").

Lemma plan_all_end :
  match plan_all_.2 with
  | None => length plan_all_.1 = length (rounds tfds_load)
  | Some e =>
      exists root i,
        rounds tfds_load !! length plan_all_.1 = Some (root, i) /\
        render fromarray png_encode root (N.of_nat (length plan_all_.1)) i = Raise e
  end.
Proof.
  rewrite plan_all_as_rounds.
  pose proof (plan_rounds_end fromarray png_encode (rounds tfds_load) 0%N) as H.
  destruct (plan_rounds _ _ _ _).2; [|done].
  destruct H as (root & i & ? & Hr). rewrite N.add_0_l in Hr. eauto.
Qed.

Lemma length_rounds :
  length (rounds tfds_load) = (length train_set + length test_set)%nat.
Proof. unfold rounds. by rewrite length_app, !length_map. Qed.

Lemma rounds_train j i :
  train_set !! j = Some i -> rounds tfds_load !! j = Some (TRAIN_ROOT, i).
Proof.
  intros H. unfold rounds. rewrite lookup_app_l.
  - by rewrite list_lookup_fmap, H.
  - rewrite length_map. by eapply lookup_lt_Some.
Qed.

Lemma rounds_test j i :
  test_set !! j = Some i ->
  rounds tfds_load !! (length train_set + j)%nat = Some (TEST_ROOT, i).
Proof.
  intros H. unfold rounds. rewrite lookup_app_r; rewrite length_map; [|lia].
  replace (length train_set + j - length train_set)%nat with j by lia.
  by rewrite list_lookup_fmap, H.
Qed.

(** After a successful run the written images are the plan, one for each
    round. *)
Lemma run_ok_written fs0 w' :
  script_ (start fs0) = (Ok tt, w') ->
  written_images (trace w') = plan_all_.1 /\
  length plan_all_.1 = length (rounds tfds_load) /\
  forall p c, (p, c) ∈ plan_all_.1 -> fs w' !! p = Some (File c).
Proof.
  intros Hrun. pose proof (run_written _ _ _ _ _ _ _ _ Hrun) as [_ Hw].
  apply run_shape in Hrun as (w1 & specs & recs & _ & _ & _ & -> & _ & _ & _ & Hend).
  destruct Hend as (_ & _ & -> & Hnone).
  split; [by apply Hw|]. split.
  - pose proof plan_all_end as H. by rewrite Hnone in H.
  - intros p c Hin. apply lookup_apply_writes_in; [apply plan_all_nodup|done].
Qed.

Lemma run_ok_round fs0 w' k root i :
  script_ (start fs0) = (Ok tt, w') ->
  rounds tfds_load !! k = Some (root, i) ->
  exists lab img data,
    fromarray (ex_image i) = Some img /\
    list_getitem IMAGENETTE_LABELS (ex_label i) = Ok lab /\
    png_encode img = Some data /\
    written_images (trace w') !! k = Some (image_path root lab (N.of_nat k), Png data) /\
    fs w' !! image_path root lab (N.of_nat k) = Some (File (Png data)).
Proof.
  intros (Hw & Hlen & Hfs)%run_ok_written Hk.
  destruct (lookup_lt_is_Some_2 plan_all_.1 k) as [[p c] Hp].
  { rewrite Hlen. by eapply lookup_lt_Some. }
  pose proof Hp as Hp'.
  apply plan_all_lookup in Hp' as (root' & i' & lab & img & data & Hk' & ? & ? & ? & -> & ->).
  rewrite Hk in Hk'. injection Hk' as <- <-.
  exists lab, img, data. split; [done|]. split; [done|]. split; [done|].
  split; [by rewrite Hw|]. apply Hfs. by eapply list_elem_of_lookup_2.
Qed.

(** X2. The counter is shared by the two loops: in a successful run with
    N train examples, the j-th train image (from 0) is written j-th, under
    the train root, with the name of counter j, and the j-th test image is
    written (N+j)-th, under the test root, with the name of counter N+j.
    The directory, not the name, tells the split. *)
Theorem shared_counter (fs0 : gmap (list string) entry) (w' : world) :
  script fromarray png_encode tfds_load now_train now_test (start fs0) = (Ok tt, w') ->
  let train := tfds_load "imagenette" "train" in
  let test := tfds_load "imagenette" "validation" in
  let imgs := written_images (trace w') in
  length imgs = (length train + length test)%nat /\
  (forall j i, train !! j = Some i ->
     exists lab c,
       imgs !! j =
       Some (PosixPath.components TRAIN_ROOT ++
               [lab; PyStr.format_0gt6d (N.of_nat j) +:+ ".png"], c)) /\
  (forall j i, test !! j = Some i ->
     exists lab c,
       imgs !! (length train + j)%nat =
       Some (PosixPath.components TEST_ROOT ++
               [lab; PyStr.format_0gt6d (N.of_nat (length train + j)) +:+ ".png"], c)).
Proof.
  intros Hrun. cbv zeta. split; [|split].
  - destruct (run_ok_written _ _ Hrun) as (Hw & Hlen & _).
    rewrite Hw, Hlen. apply length_rounds.
  - intros j i Hj. apply rounds_train in Hj.
    destruct (run_ok_round _ _ _ _ _ Hrun Hj) as (lab & img & data & _ & _ & _ & H & _).
    exists lab, (Png data). rewrite image_path_unfold in H. exact H.
  - intros j i Hj. apply rounds_test in Hj.
    destruct (run_ok_round _ _ _ _ _ Hrun Hj) as (lab & img & data & _ & _ & _ & H & _).
    exists lab, (Png data). rewrite image_path_unfold in H. exact H.
Qed.

(** X3. In a successful run, for every example of a split the image
    decoded from the example's array is in the file
    root/{split}/{name of the example's label}/{counter}.png: the directory
    is the one of the label name at the example's label index, under the
    root of the split. *)
Theorem image_placement (fs0 : gmap (list string) entry) (w' : world)
    (k : nat) (root : string) (i : example ndarray) :
  script fromarray png_encode tfds_load now_train now_test (start fs0) = (Ok tt, w') ->
  rounds tfds_load !! k = Some (root, i) ->
  exists lab img data,
    fromarray (ex_image i) = Some img /\
    list_getitem IMAGENETTE_LABELS (ex_label i) = Ok lab /\
    png_encode img = Some data /\
    fs w' !! (PosixPath.components root ++
                [lab; PyStr.format_0gt6d (N.of_nat k) +:+ ".png"])
    = Some (File (Png data)).
Proof.
  intros Hrun Hk.
  destruct (run_ok_round _ _ _ _ _ Hrun Hk) as (lab & img & data & H1 & H2 & H3 & _ & H4).
  exists lab, img, data. rewrite image_path_unfold in H4.
  split; [exact H1|]. split; [exact H2|]. split; [exact H3|exact H4].
Qed.

End Placement.

Lemma shared_counter_witness :
  demo_run = (Ok tt, demo_run.2) /\
  length (written_images (trace demo_run.2))
  = (length (Demo.load "imagenette" "train") +
     length (Demo.load "imagenette" "validation"))%nat.
Proof.
  split; [exact demo_run_ok|].
  exact (proj1 (shared_counter Demo.fromarray Demo.png_encode Demo.load
                  Demo.now_train Demo.now_test ∅ _ demo_run_ok)).
Defined.

Lemma demo_round_3 :
  rounds Demo.load !! 3%nat = Some (TEST_ROOT, Example_ 4%nat 2).
Proof. reflexivity. Qed.

Lemma image_placement_witness :
  demo_run = (Ok tt, demo_run.2) /\
  rounds Demo.load !! 3%nat = Some (TEST_ROOT, Example_ 4%nat 2) /\
  exists lab img data,
    Demo.fromarray (ex_image (Example_ 4%nat 2)) = Some img /\
    list_getitem IMAGENETTE_LABELS (ex_label (Example_ 4%nat 2)) = Ok lab /\
    Demo.png_encode img = Some data /\
    fs demo_run.2 !! (PosixPath.components TEST_ROOT ++
                        [lab; PyStr.format_0gt6d (N.of_nat 3) +:+ ".png"])
    = Some (File (Png data)).
Proof.
  split; [exact demo_run_ok|]. split; [exact demo_round_3|].
  exact (image_placement Demo.fromarray Demo.png_encode Demo.load
           Demo.now_train Demo.now_test ∅ _ 3%nat TEST_ROOT (Example_ 4%nat 2)
           demo_run_ok demo_round_3).
Defined.

(** ** The file names *)

(** X1. The text [f"{cnt:0>6d}"] of a counter is made of decimal digits
    only, reads back as the counter, and has exactly six characters if and
    only if the counter is below 1000000; so different counters never
    share a name, and from 1000000 on the name is longer than six digits. *)
Theorem counter_format (cnt : N) :
  PyStr.all_chars PyStr.is_digit (PyStr.format_0gt6d cnt) = true /\
  PyStr.value_from 0 (PyStr.format_0gt6d cnt) = cnt /\
  (String.length (PyStr.format_0gt6d cnt) = 6%nat <-> (cnt < 1000000)%N).
Proof.
  split; [apply PyStrFacts.digits_format|]. split; [apply PyStrFacts.value_format|].
  split.
  - intros Hlen. destruct (N.lt_ge_cases cnt 1000000) as [Hlt|Hge]; [done|].
    apply PyStrFacts.length_format_large in Hge. lia.
  - apply PyStrFacts.length_format_small.
Qed.

Lemma imap_const_seq {A B} (h : nat -> B) (l : list A) :
  imap (fun k _ => h k) l = map h (seq 0 (length l)).
Proof.
  apply list_eq. intros k. rewrite list_lookup_imap, list_lookup_fmap.
  destruct (l !! k) as [a|] eqn:E; simpl.
  - apply lookup_lt_Some in E. by rewrite lookup_seq_lt.
  - apply lookup_ge_None in E. by rewrite lookup_seq_ge.
Qed.

Lemma six_digit_image_name cnt :
  six_digit_png (image_name cnt) <-> (cnt < 1000000)%N.
Proof.
  unfold six_digit_png, image_name. split.
  - intros (ds & E & Hlen & _). apply append_inj_l in E. subst ds.
    destruct (N.lt_ge_cases cnt 1000000) as [Hlt|Hge]; [done|].
    apply PyStrFacts.length_format_large in Hge. lia.
  - intros Hlt. exists (PyStr.format_0gt6d cnt). split; [done|].
    split; [by apply PyStrFacts.length_format_small|apply PyStrFacts.digits_format].
Qed.

Section Names.

Context {ndarray image : Type}.
Variable fromarray : ndarray -> option image.
Variable png_encode : image -> option (list Byte.byte).
Variable tfds_load : string -> string -> list (example ndarray).
Variables now_train now_test : string.

Local Abbreviation plan_all_ := (plan_all fromarray png_encode tfds_load).
Local Abbreviation script_ :=
  (script fromarray png_encode tfds_load now_train now_test).

Lemma run_names fs0 r w' :
  script_ (start fs0) = (r, w') ->
  image_names (trace w')
  = map (fun k => image_name (N.of_nat k))
        (seq 0 (length (written_images (trace w')))).
Proof.
  intros [[rest E] _]%run_written.
  unfold image_names. rewrite <-imap_const_seq. apply omap_indexed.
  intros k [p c] Hk. simpl.
  apply (plan_all_name fromarray png_encode tfds_load k p c).
  rewrite E. by apply lookup_app_l_Some.
Qed.

(** X4. However a run ends, the name of the [k]-th image file it wrote
    (from 0) is the text of [k] in the format of the counter followed by
    [.png]; no two image files of the run have the same name, whatever
    their directories, and no two have the same path. *)
Theorem image_names_distinct (fs0 : gmap (list string) entry) (r : outcome unit)
    (w' : world) :
  script fromarray png_encode tfds_load now_train now_test (start fs0) = (r, w') ->
  image_names (trace w')
  = map (fun k => PyStr.format_0gt6d (N.of_nat k) +:+ ".png")
        (seq 0 (length (written_images (trace w')))) /\
  NoDup (image_names (trace w')) /\
  NoDup (written_images (trace w')).*1.
Proof.
  intros Hrun. split; [exact (run_names _ _ _ Hrun)|]. split.
  - rewrite (run_names _ _ _ Hrun). apply NoDup_fmap_2; [|apply NoDup_seq].
    intros j k E. apply image_name_inj in E. lia.
  - apply run_written in Hrun as [[rest E] _].
    pose proof (plan_all_nodup fromarray png_encode tfds_load) as Hnd.
    rewrite E, fmap_app in Hnd. by apply NoDup_app in Hnd as [? _].
Qed.

(** X5. In a successful run every image file has a name of exactly six
    digits and [.png] if and only if the two splits together have at most
    1000000 examples: the format gives a minimum width, not a maximum. *)
Theorem six_digit_names (fs0 : gmap (list string) entry) (w' : world) :
  script fromarray png_encode tfds_load now_train now_test (start fs0) = (Ok tt, w') ->
  Forall six_digit_png (image_names (trace w')) <->
  (N.of_nat (length (tfds_load "imagenette" "train")) +
   N.of_nat (length (tfds_load "imagenette" "validation")) <= 1000000)%N.
Proof.
  intros Hrun. rewrite (run_names _ _ _ Hrun).
  destruct (run_ok_written fromarray png_encode tfds_load now_train now_test
              _ _ Hrun) as (-> & -> & _).
  rewrite length_rounds.
  rewrite Forall_fmap, Forall_seq. split.
  - intros H.
    destruct (N.le_gt_cases
                (N.of_nat (length (tfds_load "imagenette" "train")) +
                 N.of_nat (length (tfds_load "imagenette" "validation"))) 1000000)
      as [Hle|Hgt]; [done|].
    assert (six_digit_png (image_name (N.of_nat (N.to_nat 1000000)))) as H6.
    { apply H. lia. }
    apply six_digit_image_name in H6. lia.
  - intros Hle k Hk. apply six_digit_image_name. lia.
Qed.

End Names.

(** The run of the small data set with the example that cannot be
    decoded, on an empty file system. *)
Local Abbreviation demo_broken_run :=
  (script Demo.fromarray Demo.png_encode Demo.load_broken Demo.now_train
          Demo.now_test (start ∅)).

Lemma demo_broken_run_raises :
  demo_broken_run = (Raise TypeError, demo_broken_run.2).
Proof. apply pair_eta. vm_compute. reflexivity. Qed.

Lemma image_names_distinct_witness :
  demo_broken_run = (Raise TypeError, demo_broken_run.2) /\
  NoDup (image_names (trace demo_broken_run.2)) /\
  NoDup (written_images (trace demo_broken_run.2)).*1.
Proof.
  split; [exact demo_broken_run_raises|].
  exact (proj2 (image_names_distinct Demo.fromarray Demo.png_encode Demo.load_broken
                  Demo.now_train Demo.now_test ∅ _ _ demo_broken_run_raises)).
Defined.

Lemma six_digit_names_witness :
  demo_run = (Ok tt, demo_run.2) /\
  (Forall six_digit_png (image_names (trace demo_run.2)) <->
   (N.of_nat (length (Demo.load "imagenette" "train")) +
    N.of_nat (length (Demo.load "imagenette" "validation")) <= 1000000)%N).
Proof.
  split; [exact demo_run_ok|].
  exact (six_digit_names Demo.fromarray Demo.png_encode Demo.load
           Demo.now_train Demo.now_test ∅ _ demo_run_ok).
Defined.

(** ** The stages of a run *)

Lemma length_spec_paths :
  length train_spec_path = 6%nat /\ length test_spec_path = 6%nat.
Proof.
  destruct spec_paths_shape as (-> & -> & _ & _).
  rewrite !length_app, length_dir_root. done.
Qed.

Lemma length_label_dir root lab :
  root ∈ split_roots -> length (label_dir root lab) = 7%nat.
Proof.
  intros [s E]%(label_dir_under_root root lab).
  rewrite E, length_app, length_dir_root. done.
Qed.

Lemma length_image_path root lab cnt :
  root ∈ split_roots -> length (image_path root lab cnt) = 8%nat.
Proof.
  intros Hr. rewrite image_path_snoc, length_app, length_label_dir by done. done.
Qed.


Lemma spec_paths_nodup : train_spec_path <> test_spec_path.
Proof.
  destruct spec_paths_shape as (-> & -> & _ & _).
  intros E. apply app_inv_head in E. discriminate E.
Qed.

Lemma last_write_elem recs p c : last_write recs p = Some c -> (p, c) ∈ recs.
Proof.
  induction recs as [|[q d] recs IH] using rev_ind; [done|].
  rewrite last_write_snoc. simpl. case_bool_decide as E.
  - intros [= <-]. subst q. apply elem_of_app. right. apply list_elem_of_singleton. done.
  - intros H. apply elem_of_app. left. by apply IH.
Qed.

Lemma last_write_None recs p : last_write recs p = None -> p ∉ recs.*1.
Proof.
  induction recs as [|[q d] recs IH] using rev_ind; [intros _; apply not_elem_of_nil|].
  rewrite last_write_snoc. simpl. case_bool_decide as E; [done|].
  intros H. rewrite fmap_app, elem_of_app. intros [Hin|Hin].
  - by apply IH.
  - simpl in Hin. apply list_elem_of_singleton in Hin. by subst.
Qed.

Lemma written_images_stages w1 now_train now_test specs recs :
  Forall is_mkdir (trace w1) ->
  specs `prefix_of` spec_writes now_train now_test ->
  Forall (fun rec => is_png_content rec.2) recs ->
  written_images (trace (apply_writes recs (apply_writes specs w1))) = recs.
Proof.
  intros Hm Hs Hp. simpl. rewrite !written_images_app.
  rewrite (written_images_mkdirs _ Hm), (written_images_specs _ _ _ Hs).
  simpl. by apply written_images_writes.
Qed.

Section Stages.

Context {ndarray image : Type}.
Variable fromarray : ndarray -> option image.
Variable png_encode : image -> option (list Byte.byte).
Variable tfds_load : string -> string -> list (example ndarray).
Variables now_train now_test : string.

Local Abbreviation plan_all_ := (plan_all fromarray png_encode tfds_load).
Local Abbreviation script_ :=
  (script fromarray png_encode tfds_load now_train now_test).

(** Every file of the plan is an image in a label directory. *)
Lemma plan_all_elem p c :
  (p, c) ∈ plan_all_.1 ->
  exists root lab k data,
    root ∈ split_roots /\ lab ∈ IMAGENETTE_LABELS /\
    (k < length (rounds tfds_load))%nat /\
    p = image_path root lab (N.of_nat k) /\ c = Png data.
Proof.
  intros [k Hk]%list_elem_of_lookup_1.
  apply plan_all_lookup in Hk as (root & i & lab & img & data & Hr & _ & Hl & _ & -> & ->).
  exists root, lab, k, data. split; [by eapply rounds_root|].
  split; [by eapply list_getitem_elem_of|]. split; [by eapply lookup_lt_Some|done].
Qed.

Lemma plan_all_paths_length p :
  p ∈ plan_all_.1.*1 -> length p = 8%nat.
Proof.
  intros ([p' c] & -> & Hin)%list_elem_of_fmap.
  apply plan_all_elem in Hin as (root & lab & k & data & Hr & _ & _ & -> & _).
  by apply length_image_path.
Qed.

Lemma prefix_paths_length (recs : list (list string * content)) p :
  recs `prefix_of` plan_all_.1 -> p ∈ recs.*1 -> length p = 8%nat.
Proof.
  intros [rest E] Hin. apply plan_all_paths_length.
  rewrite E, fmap_app, elem_of_app. by left.
Qed.


(** X7. After a successful run the two spec files are in the dataset
    root, under their names, each holding the document built in this run. *)
Theorem spec_files_written (fs0 : gmap (list string) entry) (w' : world) :
  script fromarray png_encode tfds_load now_train now_test (start fs0) = (Ok tt, w') ->
  fs w' !! (PosixPath.components DIR_ROOT ++ [train_spec_filename])
  = Some (File (Json (train_spec now_train))) /\
  fs w' !! (PosixPath.components DIR_ROOT ++ [test_spec_filename])
  = Some (File (Json (test_spec now_test))).
Proof.
  intros (w1 & specs & recs & _ & _ & Hr & -> & _ & _ & _ & Hend)%run_shape.
  destruct Hend as (_ & -> & _ & _).
  destruct spec_paths_shape as (Etr & Ete & _ & _).
  destruct length_spec_paths as [Ltr Lte].
  pose proof spec_paths_nodup as Hne.
  rewrite <-Etr, <-Ete.
  split; (rewrite lookup_apply_writes_notin;
          [|intros Hin; apply (prefix_paths_length _ _ Hr) in Hin; lia]).
  - apply lookup_apply_writes_in.
    + unfold spec_writes. cbn [fmap list_fmap fst]. apply NoDup_cons. split.
      * by rewrite list_elem_of_singleton.
      * apply NoDup_singleton.
    + unfold spec_writes. apply elem_of_cons. by left.
  - apply lookup_apply_writes_in.
    + unfold spec_writes. cbn [fmap list_fmap fst]. apply NoDup_cons. split.
      * by rewrite list_elem_of_singleton.
      * apply NoDup_singleton.
    + unfold spec_writes. rewrite !elem_of_cons. right. by left.
Qed.


End Stages.


Lemma spec_files_written_witness :
  demo_run = (Ok tt, demo_run.2) /\
  fs demo_run.2 !! (PosixPath.components DIR_ROOT ++ [train_spec_filename])
  = Some (File (Json (train_spec Demo.now_train))).
Proof.
  split; [exact demo_run_ok|].
  exact (proj1 (spec_files_written Demo.fromarray Demo.png_encode Demo.load
                  Demo.now_train Demo.now_test ∅ _ demo_run_ok)).
Defined.


(** ** When a stage fails *)




Lemma lookup_spec_files now_train now_test recs w1 :
  (forall p, p ∈ recs.*1 -> length p = 8%nat) ->
  fs (apply_writes recs (with_specs now_train now_test w1)) !! train_spec_path
  = Some (File (Json (train_spec now_train))) /\
  fs (apply_writes recs (with_specs now_train now_test w1)) !! test_spec_path
  = Some (File (Json (test_spec now_test))).
Proof.
  intros Hlen. destruct length_spec_paths as [Ltr Lte].
  pose proof spec_paths_nodup as Hne.
  assert (NoDup (spec_writes now_train now_test).*1) as Hnd.
  { unfold spec_writes. cbn [fmap list_fmap fst]. apply NoDup_cons. split.
    - by rewrite list_elem_of_singleton.
    - apply NoDup_singleton. }
  unfold with_specs.
  split; (rewrite lookup_apply_writes_notin;
          [|intros Hin; apply Hlen in Hin; lia]).
  - apply lookup_apply_writes_in; [exact Hnd|].
    unfold spec_writes. apply elem_of_cons. by left.
  - apply lookup_apply_writes_in; [exact Hnd|].
    unfold spec_writes. rewrite !elem_of_cons. right. by left.
Qed.

Lemma tree_built_writes now_train now_test recs w1 :
  (forall p, p ∈ recs.*1 -> length p = 8%nat) ->
  tree_built w1 ->
  tree_built (apply_writes recs (with_specs now_train now_test w1)).
Proof.
  intros Hlen Ht p Hp. destruct spec_paths_shape as (_ & _ & Ntr & Nte).
  apply is_dir_apply_writes.
  - unfold with_specs. apply is_dir_apply_writes; [exact (Ht p Hp)|].
    unfold spec_writes. cbn [fmap list_fmap fst].
    rewrite !elem_of_cons, elem_of_nil. intros [E|[E|[]]]; subst p.
    + exact (Ntr Hp).
    + exact (Nte Hp).
  - pose proof tree_dirs_length as Hl. rewrite Forall_forall in Hl.
    specialize (Hl p Hp). intros Hin. apply Hlen in Hin. lia.
Qed.

Section Failure.

Context {ndarray image : Type}.
Variable fromarray : ndarray -> option image.
Variable png_encode : image -> option (list Byte.byte).
Variable tfds_load : string -> string -> list (example ndarray).
Variables now_train now_test : string.

Local Abbreviation plan_all_ := (plan_all fromarray png_encode tfds_load).

(** X10. Nothing is rolled back. On a destination with no prior data, if
    round [k] of the two loops (counted from 0 across both) is the first
    whose example cannot be saved (its array is no image, its label is no
    index of the list, or the image cannot be encoded), the run ends with
    that round's exception, and what was done before stays: the whole
    directory tree, the two spec files with their documents, and exactly
    the [k] images of the rounds before, each in its file. *)
Theorem first_failure_keeps_earlier (fs0 : gmap (list string) entry) (k : nat)
    (root : string) (i : example ndarray) (e : exn) :
  empty_destination fs0 ->
  rounds tfds_load !! k = Some (root, i) ->
  (forall j root' i', (j < k)%nat -> rounds tfds_load !! j = Some (root', i') ->
     exists rec, render fromarray png_encode root' (N.of_nat j) i' = Ok rec) ->
  render fromarray png_encode root (N.of_nat k) i = Raise e ->
  exists w',
    script fromarray png_encode tfds_load now_train now_test (start fs0) = (Raise e, w') /\
    tree_built w' /\
    fs w' !! train_spec_path = Some (File (Json (train_spec now_train))) /\
    fs w' !! test_spec_path = Some (File (Json (test_spec now_test))) /\
    length (written_images (trace w')) = k /\
    (forall j p c, written_images (trace w') !! j = Some (p, c) ->
       fs w' !! p = Some (File c) /\
       exists root' i', rounds tfds_load !! j = Some (root', i') /\
                        render fromarray png_encode root' (N.of_nat j) i' = Ok (p, c)).
Proof.
  intros Hempty Hk Hbefore Hraise.
  destruct (run_empty fromarray png_encode tfds_load now_train now_test fs0 Hempty)
    as (w1 & Hb & Hg & Ht & Hrun).
  destruct (plan_rounds_first_raise fromarray png_encode (rounds tfds_load) 0 k root i e
              Hk Hbefore Hraise) as [H2 Hl].
  rewrite <-plan_all_as_rounds in H2, Hl. rewrite H2 in Hrun.
  eexists. split; [exact Hrun|].
  pose proof (plan_all_paths_length fromarray png_encode tfds_load) as Hlen.
  split; [by apply tree_built_writes|].
  destruct (lookup_spec_files now_train now_test plan_all_.1 w1 Hlen) as [Htr Hte].
  split; [exact Htr|]. split; [exact Hte|].
  assert (written_images
            (trace (apply_writes plan_all_.1 (with_specs now_train now_test w1)))
          = plan_all_.1) as ->.
  { unfold with_specs. apply (written_images_stages _ now_train now_test).
    - destruct Hg as [_ (evs & -> & Hm)]. exact Hm.
    - done.
    - apply plan_all_png. }
  split; [exact Hl|]. intros j p c Hj. split.
  - apply lookup_apply_writes_in; [apply plan_all_nodup|by eapply list_elem_of_lookup_2].
  - rewrite plan_all_as_rounds in Hj.
    apply plan_rounds_lookup in Hj as (root' & i' & Hr & Hrender).
    exists root', i'. split; [exact Hr|exact Hrender].
Qed.

End Failure.

Lemma demo_broken_round_1 :
  rounds Demo.load_broken !! 1%nat = Some (TRAIN_ROOT, Example_ 13%nat 0).
Proof. reflexivity. Qed.

Lemma demo_broken_before j root' i' :
  (j < 1)%nat -> rounds Demo.load_broken !! j = Some (root', i') ->
  exists rec, render Demo.fromarray Demo.png_encode root' (N.of_nat j) i' = Ok rec.
Proof.
  intros Hj. destruct j as [|j]; [|lia]. intros [= <- <-]. eexists. reflexivity.
Qed.

Lemma demo_broken_render_1 :
  render Demo.fromarray Demo.png_encode TRAIN_ROOT (N.of_nat 1) (Example_ 13%nat 0)
  = Raise TypeError.
Proof. reflexivity. Qed.

Lemma first_failure_keeps_earlier_witness :
  empty_destination ∅ /\
  rounds Demo.load_broken !! 1%nat = Some (TRAIN_ROOT, Example_ 13%nat 0) /\
  render Demo.fromarray Demo.png_encode TRAIN_ROOT (N.of_nat 1) (Example_ 13%nat 0)
  = Raise TypeError /\
  exists w',
    script Demo.fromarray Demo.png_encode Demo.load_broken Demo.now_train Demo.now_test
           (start ∅) = (Raise TypeError, w') /\
    tree_built w' /\
    length (written_images (trace w')) = 1%nat.
Proof.
  split; [exact empty_destination_empty|]. split; [exact demo_broken_round_1|].
  split; [exact demo_broken_render_1|].
  destruct (first_failure_keeps_earlier Demo.fromarray Demo.png_encode Demo.load_broken
              Demo.now_train Demo.now_test ∅ 1%nat TRAIN_ROOT (Example_ 13%nat 0)
              TypeError empty_destination_empty demo_broken_round_1
              demo_broken_before demo_broken_render_1)
    as (w' & Hrun & Ht & _ & _ & Hlen & _).
  exists w'. split; [exact Hrun|]. split; [exact Ht|exact Hlen].
Defined.

(** ** Running the script again *)

Lemma node_apply_write p0 c0 w p :
  FS.node w p0 <> Some Dir ->
  FS.node (apply_writes [(p0, c0)] w) p
  = if decide (p = p0) then Some (File c0) else FS.node w p.
Proof.
  intros Hp0. unfold FS.node. destruct p as [|a p].
  - destruct (decide ([] = p0)) as [<-|_]; [|done]. by destruct Hp0.
  - rewrite fs_apply_write. destruct (decide (a :: p = p0)) as [<-|Hne].
    + apply lookup_insert_eq.
    + by rewrite lookup_insert_ne.
Qed.

Section Takes.

Context {ndarray image : Type}.
Variable fromarray : ndarray -> option image.
Variable png_encode : image -> option (list Byte.byte).
Variable tfds_load : string -> string -> list (example ndarray).

Local Abbreviation plan_ := (plan fromarray png_encode).
Local Abbreviation plan_all_ := (plan_all fromarray png_encode tfds_load).
Local Abbreviation train_set := (tfds_load "imagenette" "train").
Local Abbreviation test_set := (tfds_load "imagenette" "validation").

(** A loop carries out its plan in every world where each file of the
    plan can be written: no directory in its place, and its directory
    there. *)
Lemma write_images_takes root it cnt w :
  (forall p c, (p, c) ∈ (plan_ root it cnt).1 ->
     FS.node w p <> Some Dir /\ FS.is_dir w (FS.parent p)) ->
  write_images fromarray png_encode root it cnt w
  = (match (plan_ root it cnt).2 with
     | None => Ok (cnt + N.of_nat (length it))%N
     | Some e => Raise e
     end,
     apply_writes (plan_ root it cnt).1 w).
Proof.
  revert cnt w. induction it as [|i rest IH]; intros cnt w Hw.
  - simpl. by rewrite apply_writes_nil, N.add_0_r.
  - simpl in *. rewrite bind_unfold, save_example_render.
    destruct (render _ _ root cnt i) as [[p0 c0]|e] eqn:Er.
    + destruct (plan_ root rest (cnt + 1)) as [recs r] eqn:Ep. cbn [fst snd] in *.
      destruct (Hw p0 c0) as [Hn0 Hd0]; [apply elem_of_cons; by left|].
      rewrite FSFacts.write_succeeds by done.
      specialize (IH (cnt + 1)%N (apply_writes [(p0, c0)] w)).
      rewrite Ep in IH. cbn [fst snd] in IH.
      rewrite IH, (apply_writes_cons _ recs).
      * f_equal. destruct r; [done|]. f_equal. lia.
      * intros p c Hin. destruct (Hw p c) as [Hn Hd]; [apply elem_of_cons; by right|].
        split.
        -- rewrite node_apply_write by done. by destruct (decide (p = p0)).
        -- apply is_dir_apply_writes; [done|]. cbn [fmap list_fmap fst].
           rewrite list_elem_of_singleton. intros E. rewrite E in Hd. by apply Hn0.
    + simpl. by rewrite apply_writes_nil.
Qed.

Lemma takes_apply_writes (recs recs' : list (list string * content)) w :
  (forall p c, (p, c) ∈ recs ++ recs' ->
     FS.node w p <> Some Dir /\ FS.is_dir w (FS.parent p)) ->
  forall p c, (p, c) ∈ recs' ->
    FS.node (apply_writes recs w) p <> Some Dir /\
    FS.is_dir (apply_writes recs w) (FS.parent p).
Proof.
  revert w. induction recs as [|[p0 c0] recs IH]; intros w Hw p c Hin.
  - rewrite apply_writes_nil. by apply (Hw p c).
  - rewrite apply_writes_cons. apply (IH _) with (c := c); [|done].
    destruct (Hw p0 c0) as [Hn0 Hd0]; [apply elem_of_cons; by left|].
    intros q d Hq. destruct (Hw q d) as [Hn Hd]; [apply elem_of_cons; by right|].
    split.
    + rewrite node_apply_write by done. by destruct (decide (q = p0)).
    + apply is_dir_apply_writes; [done|]. cbn [fmap list_fmap fst].
      rewrite list_elem_of_singleton. intros E. rewrite E in Hd. by apply Hn0.
Qed.

Lemma write_all_images_takes w :
  (forall p c, (p, c) ∈ plan_all_.1 ->
     FS.node w p <> Some Dir /\ FS.is_dir w (FS.parent p)) ->
  write_all_images fromarray png_encode tfds_load w =
  (match plan_all_.2 with None => Ok tt | Some e => Raise e end,
   apply_writes plan_all_.1 w).
Proof.
  rewrite write_all_images_unfold, plan_all_unfold. intros Hw.
  destruct (plan_ TRAIN_ROOT train_set 0) as [recs1 [e|]] eqn:E1; cbn [fst snd] in *.
  - pose proof (write_images_takes TRAIN_ROOT train_set 0%N w) as H1.
    rewrite E1 in H1. cbn [fst snd] in H1. by rewrite H1.
  - pose proof (write_images_takes TRAIN_ROOT train_set 0%N w) as H1.
    rewrite E1 in H1. cbn [fst snd] in H1. rewrite H1.
    2:{ intros p c Hin. apply (Hw p c). apply elem_of_app. by left. }
    rewrite N.add_0_l.
    pose proof (write_images_takes TEST_ROOT test_set (N.of_nat (length train_set))
                  (apply_writes recs1 w)) as H2.
    rewrite H2.
    + destruct (plan_ TEST_ROOT test_set _) as [recs2 [e|]]; cbn [fst snd];
        by rewrite apply_writes_app.
    + intros p c Hin. by apply (takes_apply_writes recs1 _ w Hw p c).
Qed.

End Takes.

Section Rerun.

Context {ndarray image : Type}.
Variable fromarray : ndarray -> option image.
Variable png_encode : image -> option (list Byte.byte).
Variable tfds_load : string -> string -> list (example ndarray).
Variables now_train now_test : string.

Local Abbreviation plan_all_ := (plan_all fromarray png_encode tfds_load).

(** X11. The script can be run again over its own result. After a
    successful run on any file system, a second run on the resulting file
    system, with the same data and at any later time, succeeds too: it
    creates no directory, its counter starts from 0 again, so it writes the
    same images to the same files, and it leaves every path as the first
    run left it except the two spec files, which now hold the documents of
    the second run. *)
Theorem rerun_in_place (fs0 : gmap (list string) entry) (w' : world)
    (now_train' now_test' : string) :
  script fromarray png_encode tfds_load now_train now_test (start fs0) = (Ok tt, w') ->
  exists w'',
    script fromarray png_encode tfds_load now_train' now_test' (start (fs w'))
    = (Ok tt, w'') /\
    Forall (fun ev => ~ is_mkdir ev) (trace w'') /\
    written_images (trace w'') = written_images (trace w') /\
    (forall p, p <> train_spec_path -> p <> test_spec_path ->
       fs w'' !! p = fs w' !! p) /\
    fs w'' !! train_spec_path = Some (File (Json (train_spec now_train'))) /\
    fs w'' !! test_spec_path = Some (File (Json (test_spec now_test'))).
Proof.
  intros Hrun.
  destruct (run_ok_written fromarray png_encode tfds_load now_train now_test
              _ _ Hrun) as (Hwritten & _ & Hfiles).
  apply run_shape in Hrun
    as (w1 & specs & recs & _ & _ & _ & Hw' & Hkeep & _ & _ & Hb & -> & -> & Hnone).
  pose proof (plan_all_paths_length fromarray png_encode tfds_load) as Hlen.
  destruct length_spec_paths as [Ltr Lte].
  assert (tree_built (start (fs w'))) as Ht.
  { intros p Hp. apply (BuildFacts.build_dirs_ok _ _ Hb), Hkeep in Hp. exact Hp. }
  destruct (lookup_spec_files now_train now_test plan_all_.1 w1 Hlen) as [Htr Hte].
  unfold with_specs in Htr, Hte. rewrite <-Hw' in Htr, Hte.
  assert (forall p, length p = 8%nat ->
            p ∉ (spec_writes now_train' now_test').*1) as Hnotspec.
  { intros p Hp. unfold spec_writes. cbn [fmap list_fmap fst].
    rewrite !elem_of_cons, elem_of_nil. intros [E|[E|[]]]; rewrite E in Hp; lia. }
  assert (forall p c, (p, c) ∈ plan_all_.1 ->
            FS.node (with_specs now_train' now_test' (start (fs w'))) p <> Some Dir /\
            FS.is_dir (with_specs now_train' now_test' (start (fs w'))) (FS.parent p))
    as Htakes.
  { intros p c Hin. pose proof (Hfiles p c Hin) as Hf.
    destruct (plan_all_elem fromarray png_encode tfds_load p c Hin)
      as (root & lab & k & data & Hroot & Hlab & _ & -> & ->).
    split.
    - rewrite image_path_snoc, FSFacts.node_snoc, <-image_path_snoc.
      unfold with_specs. rewrite lookup_apply_writes_notin.
      + simpl. rewrite Hf. discriminate.
      + apply Hnotspec. by apply length_image_path.
    - rewrite parent_image_path. unfold with_specs. apply is_dir_apply_writes.
      + by apply tree_built_labels.
      + unfold spec_writes. cbn [fmap list_fmap fst].
        rewrite !elem_of_cons, elem_of_nil.
        intros [E|[E|[]]]; apply (f_equal length) in E;
          rewrite length_label_dir in E by done; lia. }
  exists (apply_writes plan_all_.1 (with_specs now_train' now_test' (start (fs w')))).
  split.
  { rewrite script_unfold, (BuildFacts.build_dirs_noop _ Ht).
    rewrite dump_specs_built.
    - rewrite (write_all_images_takes _ _ _ _ Htakes), Hnone. reflexivity.
    - exact Ht.
    - simpl. rewrite Htr. discriminate.
    - simpl. rewrite Hte. discriminate. }
  split.
  { simpl. apply Forall_cons. split; [intros H; exact H|].
    apply Forall_cons. split; [intros H; exact H|].
    apply Forall_forall. intros ev Hev.
    apply list_elem_of_fmap in Hev as (rec & -> & _). intros H. exact H. }
  split.
  { rewrite Hwritten. unfold with_specs.
    apply (written_images_stages _ now_train' now_test').
    - apply Forall_nil_2.
    - reflexivity.
    - apply plan_all_png. }
  split.
  { intros p Hp1 Hp2. rewrite lookup_apply_writes.
    destruct (last_write plan_all_.1 p) as [c|] eqn:El.
    - apply last_write_elem in El. symmetry. by apply Hfiles.
    - unfold with_specs. rewrite lookup_apply_writes_notin; [done|].
      unfold spec_writes. cbn [fmap list_fmap fst].
      rewrite !elem_of_cons, elem_of_nil.
      intros [E|[E|[]]]; [exact (Hp1 E)|exact (Hp2 E)]. }
  exact (lookup_spec_files now_train' now_test' plan_all_.1 (start (fs w')) Hlen).
Qed.

End Rerun.

Lemma rerun_in_place_witness :
  demo_run = (Ok tt, demo_run.2) /\
  exists w'',
    script Demo.fromarray Demo.png_encode Demo.load
           "2021-03-02 09:00:00.000001" "2021-03-02 09:00:00.000002"
           (start (fs demo_run.2)) = (Ok tt, w'') /\
    written_images (trace w'') = written_images (trace demo_run.2).
Proof.
  split; [exact demo_run_ok|].
  destruct (rerun_in_place Demo.fromarray Demo.png_encode Demo.load
              Demo.now_train Demo.now_test ∅ _
              "2021-03-02 09:00:00.000001" "2021-03-02 09:00:00.000002" demo_run_ok)
    as (w'' & Hrun & _ & Hw & _).
  exists w''. split; [exact Hrun|exact Hw].
Defined.

(** ** Paths as the script writes them *)

(** X12. The path given to [Image.save]. The split roots are absolute
    paths, so [os.path.join] drops the destination root in front of them:
    the file of counter [cnt] for a label of the list is
    root/{label}/{name}, with root the train or the test root, and the
    destination root is never doubled. *)
Theorem image_file_path (root lab : string) (cnt : N) :
  root ∈ split_roots -> lab ∈ IMAGENETTE_LABELS ->
  split_roots = ["/home/churilla/nfs/datasets/imagenette/train";
                 "/home/churilla/nfs/datasets/imagenette/test"] /\
  PosixPath.join DEST_ROOT [root; lab; PyStr.format_0gt6d cnt +:+ ".png"]
  = root +:+ "/" +:+ lab +:+ "/" +:+ PyStr.format_0gt6d cnt +:+ ".png".
Proof.
  intros Hroot Hlab. split; [reflexivity|].
  destruct (split_root_shape root Hroot) as [Hs He].
  pose proof labels_components as Hc. rewrite Forall_forall in Hc.
  specialize (Hc lab Hlab).
  unfold PosixPath.join. cbn [fold_left].
  rewrite (PosixPathFacts.join2_absolute DEST_ROOT root Hs).
  destruct (PosixPathFacts.join2_component root lab) as [E1 E1']; [|done|done|].
  { intros ->. discriminate Hs. }
  destruct (PosixPathFacts.join2_component (PosixPath.join2 root lab)
              (PyStr.format_0gt6d cnt +:+ ".png")) as [E2 _].
  - rewrite E1. destruct root; [discriminate Hs|]. discriminate.
  - exact E1'.
  - apply PosixPathFacts.image_name_component.
  - rewrite E2, E1. by rewrite !PyStrFacts.append_assoc.
Qed.

Lemma image_file_path_witness :
  TEST_ROOT ∈ split_roots /\ "church" ∈ IMAGENETTE_LABELS /\
  PosixPath.join DEST_ROOT [TEST_ROOT; "church"; PyStr.format_0gt6d 12 +:+ ".png"]
  = TEST_ROOT +:+ "/" +:+ "church" +:+ "/" +:+ PyStr.format_0gt6d 12 +:+ ".png".
Proof.
  assert ("church" ∈ IMAGENETTE_LABELS) as Hin.
  { apply (bool_decide_unpack _). vm_compute. exact I. }
  split; [exact test_root_split|]. split; [exact Hin|].
  exact (proj2 (image_file_path TEST_ROOT "church" 12 test_root_split Hin)).
Defined.

(** ** The clock *)

Lemma train_spec_eq now :
  train_spec now =
  JDict [("numModelClasses", JInt 10);
         ("imageProperties",
          JDict [("dimensions", JStr "224,224"); ("colorspace", JStr "rgb")]);
         ("sampling", JDict [("algorithm", JStr "none"); ("arguments", JDict [])]);
         ("description", JStr "imagenette train images, NxN, rgb");
         ("timestamp", JStr now);
         ("formatVersion", JStr "2.0.0");
         ("data", spec_data "train")].
Proof. reflexivity. Qed.

Lemma test_spec_eq now :
  test_spec now =
  JDict [("numModelClasses", JInt 10);
         ("imageProperties",
          JDict [("dimensions", JStr "224,224"); ("colorspace", JStr "rgb")]);
         ("sampling", JDict [("algorithm", JStr "none"); ("arguments", JDict [])]);
         ("description", JStr "imagenette test images, NxN, rgb");
         ("timestamp", JStr now);
         ("formatVersion", JStr "2.0.0");
         ("data", spec_data "test")].
Proof. reflexivity. Qed.

(** X13. The clock enters a spec document only as its timestamp: the
    value under [timestamp] is the reading of the clock, and under every
    other key the documents of two runs are the same. *)
Theorem spec_timestamp_only (now now' key : string) :
  key <> "timestamp" ->
  json_get (train_spec now) "timestamp" = Some (JStr now) /\
  json_get (test_spec now) "timestamp" = Some (JStr now) /\
  json_get (train_spec now) key = json_get (train_spec now') key /\
  json_get (test_spec now) key = json_get (test_spec now') key.
Proof.
  intros Hkey. rewrite !train_spec_eq, !test_spec_eq.
  split; [reflexivity|]. split; [reflexivity|].
  unfold json_get. cbn [dict_get].
  rewrite (bool_decide_eq_false_2 (key = "timestamp")) by exact Hkey.
  split; reflexivity.
Qed.

Lemma spec_timestamp_only_witness :
  "data" <> "timestamp" /\
  json_get (train_spec Demo.now_train) "data"
  = json_get (train_spec Demo.now_test) "data".
Proof.
  assert ("data" <> "timestamp") as Hne by discriminate.
  split; [exact Hne|].
  exact (proj1 (proj2 (proj2 (spec_timestamp_only Demo.now_train Demo.now_test
                                "data" Hne)))).
Defined.

Section Clock.

Context {ndarray image : Type}.
Variable fromarray : ndarray -> option image.
Variable png_encode : image -> option (list Byte.byte).
Variable tfds_load : string -> string -> list (example ndarray).

Local Abbreviation plan_all_ := (plan_all fromarray png_encode tfds_load).

(** X14. On a destination with no prior data, how the run ends and which
    image files it writes, with which content, depends on the data alone:
    two runs over the same data, at different times and on different
    destinations without prior data, end the same way and write the same
    images to the same paths; every image either run wrote is in its file
    at the end of both. *)
Theorem run_independent_of_clock (fs0 fs0' : gmap (list string) entry)
    (now_train now_test now_train' now_test' : string) (r r' : outcome unit)
    (w w' : world) :
  empty_destination fs0 -> empty_destination fs0' ->
  script fromarray png_encode tfds_load now_train now_test (start fs0) = (r, w) ->
  script fromarray png_encode tfds_load now_train' now_test' (start fs0') = (r', w') ->
  r = r' /\
  written_images (trace w) = written_images (trace w') /\
  (forall p c, (p, c) ∈ written_images (trace w) ->
     fs w !! p = Some (File c) /\ fs w' !! p = Some (File c)).
Proof.
  intros He He' Hrun Hrun'.
  destruct (run_empty fromarray png_encode tfds_load now_train now_test fs0 He)
    as (w1 & _ & [_ (evs & Htr & Hm)] & _ & E).
  destruct (run_empty fromarray png_encode tfds_load now_train' now_test' fs0' He')
    as (w1' & _ & [_ (evs' & Htr' & Hm')] & _ & E').
  rewrite E in Hrun. rewrite E' in Hrun'.
  injection Hrun as <- <-. injection Hrun' as <- <-.
  assert (written_images
            (trace (apply_writes plan_all_.1 (with_specs now_train now_test w1)))
          = plan_all_.1) as ->.
  { unfold with_specs. apply (written_images_stages _ now_train now_test).
    - rewrite Htr. exact Hm.
    - reflexivity.
    - apply plan_all_png. }
  assert (written_images
            (trace (apply_writes plan_all_.1 (with_specs now_train' now_test' w1')))
          = plan_all_.1) as ->.
  { unfold with_specs. apply (written_images_stages _ now_train' now_test').
    - rewrite Htr'. exact Hm'.
    - reflexivity.
    - apply plan_all_png. }
  split; [reflexivity|]. split; [reflexivity|].
  intros p c Hin. split; (apply lookup_apply_writes_in; [apply plan_all_nodup|exact Hin]).
Qed.

End Clock.

Lemma run_independent_of_clock_witness :
  empty_destination ∅ /\
  demo_broken_run = (Raise TypeError, demo_broken_run.2) /\
  exists w',
    script Demo.fromarray Demo.png_encode Demo.load_broken
           "2021-03-02 09:00:00.000001" "2021-03-02 09:00:00.000002" (start ∅)
    = (Raise TypeError, w') /\
    written_images (trace demo_broken_run.2) = written_images (trace w').
Proof.
  split; [exact empty_destination_empty|]. split; [exact demo_broken_run_raises|].
  destruct (script Demo.fromarray Demo.png_encode Demo.load_broken
              "2021-03-02 09:00:00.000001" "2021-03-02 09:00:00.000002" (start ∅))
    as [r' w'] eqn:E.
  destruct (run_independent_of_clock Demo.fromarray Demo.png_encode Demo.load_broken
              ∅ ∅ Demo.now_train Demo.now_test
              "2021-03-02 09:00:00.000001" "2021-03-02 09:00:00.000002"
              _ _ _ _ empty_destination_empty empty_destination_empty
              demo_broken_run_raises E) as (Hr & Hw & _).
  exists w'. split; [by rewrite <-Hr|exact Hw].
Defined.

(** ** A directory in the place of a spec file *)

Lemma write_on_dir d f c w :
  fs w !! (d ++ [f]) = Some Dir ->
  FS.write (d ++ [f]) c w = (Raise IsADirectoryError, w).
Proof. intros H. unfold FS.write. by rewrite FSFacts.node_snoc, H. Qed.

Lemma spec_paths_after_build w w1 :
  build_dirs w = (Ok tt, w1) ->
  fs w1 !! train_spec_path = fs w !! train_spec_path /\
  fs w1 !! test_spec_path = fs w !! test_spec_path.
Proof.
  intros Hb. pose proof (BuildFacts.build_dirs_grows w) as [Hg _].
  rewrite Hb in Hg. simpl in Hg.
  destruct spec_paths_shape as (_ & _ & Ntr & Nte). split.
  - destruct (Hg train_spec_path) as [E|(_ & _ & Hin)]; [exact E|]. destruct (Ntr Hin).
  - destruct (Hg test_spec_path) as [E|(_ & _ & Hin)]; [exact E|]. destruct (Nte Hin).
Qed.

Section SpecStage.

Context {ndarray image : Type}.
Variable fromarray : ndarray -> option image.
Variable png_encode : image -> option (list Byte.byte).
Variable tfds_load : string -> string -> list (example ndarray).
Variables now_train now_test : string.

(** X15. A directory in the place of a spec file stops the run at the
    spec stage with IsADirectoryError, after the tree was built and before
    any image is written. If it is the train spec file, nothing but
    directories was made; if it is the test spec file, the train spec file
    has been written by then, and stays. *)
Theorem spec_path_taken (fs0 : gmap (list string) entry) (w1 : world) :
  build_dirs (start fs0) = (Ok tt, w1) ->
  (fs0 !! train_spec_path = Some Dir ->
   script fromarray png_encode tfds_load now_train now_test (start fs0)
   = (Raise IsADirectoryError, w1)) /\
  (fs0 !! train_spec_path <> Some Dir -> fs0 !! test_spec_path = Some Dir ->
   script fromarray png_encode tfds_load now_train now_test (start fs0)
   = (Raise IsADirectoryError,
      apply_writes [(train_spec_path, Json (train_spec now_train))] w1)).
Proof.
  intros Hb. destruct (spec_paths_after_build _ _ Hb) as [Htr Hte]. simpl in Htr, Hte.
  pose proof (BuildFacts.build_dirs_ok _ _ Hb _ dir_root_in_tree) as Hd.
  pose proof spec_paths_nodup as Hne.
  destruct spec_paths_shape as (Etr & Ete & _ & _).
  rewrite script_unfold, Hb, dump_specs_unfold, bind_unfold.
  rewrite Etr, Ete in *. split.
  - intros H. rewrite write_on_dir; [reflexivity|]. by rewrite Htr.
  - intros H1 H2. rewrite FSFacts.write_succeeds.
    + rewrite write_on_dir; [reflexivity|].
      rewrite fs_apply_write, lookup_insert_ne by exact Hne. by rewrite Hte.
    + rewrite FSFacts.node_snoc, Htr. exact H1.
    + rewrite FSFacts.parent_snoc. exact Hd.
Qed.

End SpecStage.

(** The tree, built on an empty file system, with a directory in the place
    of the test spec file. *)
Local Abbreviation blocked_fs :=
  (<[test_spec_path := Dir]> (fs (build_dirs (start ∅)).2)).

Lemma blocked_fs_build :
  build_dirs (start blocked_fs) = (Ok tt, (build_dirs (start blocked_fs)).2).
Proof. apply pair_eta. vm_compute. reflexivity. Qed.

Lemma blocked_fs_train : blocked_fs !! train_spec_path <> Some Dir.
Proof.
  rewrite lookup_insert_ne by (intros E; symmetry in E; exact (spec_paths_nodup E)).
  destruct (BuildFacts.build_dirs_succeeds (start ∅)) as [w1 Hb].
  { intros p c _. unfold start. cbn [fs]. rewrite lookup_empty. discriminate. }
  destruct (spec_paths_after_build _ _ Hb) as [Htr _].
  rewrite Hb. cbn [snd]. rewrite Htr. unfold start. cbn [fs].
  rewrite lookup_empty. discriminate.
Qed.

Lemma spec_path_taken_witness :
  build_dirs (start blocked_fs) = (Ok tt, (build_dirs (start blocked_fs)).2) /\
  blocked_fs !! train_spec_path <> Some Dir /\
  blocked_fs !! test_spec_path = Some Dir /\
  script Demo.fromarray Demo.png_encode Demo.load Demo.now_train Demo.now_test
         (start blocked_fs)
  = (Raise IsADirectoryError,
     apply_writes [(train_spec_path, Json (train_spec Demo.now_train))]
       (build_dirs (start blocked_fs)).2).
Proof.
  split; [exact blocked_fs_build|]. split; [exact blocked_fs_train|].
  split; [apply lookup_insert_eq|].
  exact (proj2 (spec_path_taken Demo.fromarray Demo.png_encode Demo.load
                  Demo.now_train Demo.now_test blocked_fs _ blocked_fs_build)
           blocked_fs_train (lookup_insert_eq _ _ _)).
Defined.

(** ** How many images a label directory holds *)

Lemma size_png_files_writes recs d :
  NoDup recs.*1 ->
  Forall (fun rec => is_png_content rec.2) recs ->
  Forall (fun rec => rec.1 <> []) recs ->
  size (png_files_in (apply_writes recs (start ∅)) d)
  = length (List.filter (fun rec => bool_decide (FS.parent rec.1 = d)) recs).
Proof.
  induction recs as [|[p c] recs IH] using rev_ind; intros Hnd Hpng Hne.
  { unfold png_files_in, start. cbn [fs apply_writes foldl].
    rewrite map_filter_empty. apply map_size_empty. }
  rewrite fmap_app in Hnd. apply NoDup_app in Hnd as (Hnd & Hnew & _).
  apply Forall_app in Hpng as [Hpng Hc]. apply Forall_app in Hne as [Hne Hp].
  rewrite Forall_singleton in Hc. rewrite Forall_singleton in Hp. simpl in Hc, Hp.
  destruct c as [doc|data]; [destruct Hc|].
  assert (fs (apply_writes recs (start ∅)) !! p = None) as Hfree.
  { rewrite lookup_apply_writes_notin.
    - unfold start. cbn [fs]. apply lookup_empty.
    - intros Hin. apply (Hnew p Hin). simpl. apply list_elem_of_singleton. done. }
  rewrite List.filter_app, length_app, <-IH by done.
  rewrite apply_writes_app. unfold png_files_in. rewrite fs_apply_write.
  cbn [List.filter fst]. case_bool_decide as Hd.
  - rewrite map_filter_insert_True by (split; [exact Hp|split; [exact Hd|exact I]]).
    rewrite map_size_insert_None; [simpl; lia|].
    apply map_lookup_filter_None_2. by left.
  - rewrite map_filter_insert_False by (simpl; tauto).
    rewrite delete_id by done. simpl. lia.
Qed.

Lemma split_root_inj root root' :
  root ∈ split_roots -> root' ∈ split_roots ->
  PosixPath.components root = PosixPath.components root' -> root = root'.
Proof.
  unfold split_roots. rewrite !elem_of_cons, !elem_of_nil.
  intros [->|[->|[]]] [->|[->|[]]] E; try reflexivity;
    vm_compute in E; discriminate E.
Qed.

Lemma label_dir_inj root lab root' lab' :
  root ∈ split_roots -> root' ∈ split_roots ->
  label_dir root lab = label_dir root' lab' -> root = root' /\ lab = lab'.
Proof.
  intros Hr Hr' E. unfold label_dir in E. apply app_inj_tail in E as [E ->].
  split; [by apply split_root_inj|done].
Qed.

Lemma roots_differ : TRAIN_ROOT <> TEST_ROOT.
Proof. apply (bool_decide_unpack _). by vm_compute. Qed.

Lemma count_map_pair {A} (f : A -> bool) (r r0 : string) (l : list A) :
  length (List.filter (fun ri : string * A => bool_decide (ri.1 = r0) && f ri.2)
                      (map (pair r) l))
  = if bool_decide (r = r0) then length (List.filter f l) else 0%nat.
Proof.
  induction l as [|a l IH]; simpl.
  - by destruct (bool_decide (r = r0)).
  - destruct (bool_decide (r = r0)) eqn:E; simpl; [|exact IH].
    destruct (f a); simpl; by rewrite IH.
Qed.

Section Count.

Context {ndarray image : Type}.
Variable fromarray : ndarray -> option image.
Variable png_encode : image -> option (list Byte.byte).
Variable tfds_load : string -> string -> list (example ndarray).
Variables now_train now_test : string.

Local Abbreviation plan_all_ := (plan_all fromarray png_encode tfds_load).
Local Abbreviation plan_rounds_ := (plan_rounds fromarray png_encode).
Local Abbreviation train_set := (tfds_load "imagenette" "train").
Local Abbreviation test_set := (tfds_load "imagenette" "validation").

(** The files a complete plan puts into a label directory are as many as
    the rounds of that split root whose label picks that name. *)
Lemma count_plan_rounds rs cnt root0 lab :
  (forall root i, (root, i) ∈ rs -> root ∈ split_roots) ->
  root0 ∈ split_roots ->
  (plan_rounds_ rs cnt).2 = None ->
  length (List.filter (fun rec => bool_decide (FS.parent rec.1 = label_dir root0 lab))
                      (plan_rounds_ rs cnt).1)
  = length (List.filter
              (fun ri : string * example ndarray =>
                 bool_decide (ri.1 = root0) && picks_label lab ri.2) rs).
Proof.
  intros Hroots Hroot0. revert cnt.
  induction rs as [|[root i] rest IH]; intros cnt; [done|].
  simpl. destruct (render _ _ root cnt i) as [[p c]|e] eqn:Er; [|done].
  specialize (IH (fun r j H => Hroots r j (proj2 (elem_of_cons _ _ _) (or_intror H)))
                 (cnt + 1)%N).
  destruct (plan_rounds_ rest (cnt + 1)) as [recs r]. cbn [fst snd] in *.
  intros Hnone. specialize (IH Hnone).
  assert (root ∈ split_roots) as Hroot.
  { apply (Hroots root i). apply elem_of_cons. by left. }
  apply render_inv in Er as (lab' & img & data & _ & Hl & _ & -> & _); [|done].
  cbn [List.filter fst snd]. rewrite parent_image_path.
  unfold picks_label at 1. rewrite Hl.
  destruct (decide (root = root0 /\ lab' = lab)) as [[-> ->]|Hno].
  - rewrite !bool_decide_eq_true_2 by done. simpl. by rewrite IH.
  - rewrite (bool_decide_eq_false_2 (label_dir root lab' = label_dir root0 lab)).
    2:{ intros E. by apply label_dir_inj in E. }
    rewrite IH. destruct (decide (root = root0)) as [->|Hr].
    + rewrite bool_decide_eq_true_2 by done.
      rewrite bool_decide_eq_false_2; [done|]. intros ->. by apply Hno.
    + by rewrite (bool_decide_eq_false_2 (root = root0)).
Qed.

Lemma count_rounds lab :
  length (List.filter
            (fun ri : string * example ndarray =>
               bool_decide (ri.1 = TRAIN_ROOT) && picks_label lab ri.2)
            (rounds tfds_load))
  = length (List.filter (picks_label lab) train_set) /\
  length (List.filter
            (fun ri : string * example ndarray =>
               bool_decide (ri.1 = TEST_ROOT) && picks_label lab ri.2)
            (rounds tfds_load))
  = length (List.filter (picks_label lab) test_set).
Proof.
  pose proof roots_differ as Hne.
  unfold rounds. rewrite !List.filter_app, !length_app, !count_map_pair.
  rewrite (bool_decide_eq_true_2 (TRAIN_ROOT = TRAIN_ROOT)) by reflexivity.
  rewrite (bool_decide_eq_true_2 (TEST_ROOT = TEST_ROOT)) by reflexivity.
  rewrite (bool_decide_eq_false_2 (TEST_ROOT = TRAIN_ROOT)) by (intros E; by apply Hne).
  rewrite (bool_decide_eq_false_2 (TRAIN_ROOT = TEST_ROOT)) by exact Hne.
  cbv iota. split; lia.
Qed.

(** X16. On a destination with no prior data, after a successful run, a
    label directory of a split holds as many PNG files as the split has
    examples whose label picks that directory's name from the list (a label
    from -10 to -1 counting from the end). *)
Theorem png_files_per_label (fs0 : gmap (list string) entry) (w' : world)
    (lab : string) :
  empty_destination fs0 ->
  script fromarray png_encode tfds_load now_train now_test (start fs0) = (Ok tt, w') ->
  size (png_files_in w' (label_dir TRAIN_ROOT lab))
  = length (List.filter (picks_label lab) (tfds_load "imagenette" "train")) /\
  size (png_files_in w' (label_dir TEST_ROOT lab))
  = length (List.filter (picks_label lab) (tfds_load "imagenette" "validation")).
Proof.
  intros Hempty Hrun.
  destruct (run_empty fromarray png_encode tfds_load now_train now_test fs0 Hempty)
    as (w1 & Hb & _ & _ & E).
  rewrite E in Hrun. destruct plan_all_.2 as [e|] eqn:Hnone; [discriminate Hrun|].
  injection Hrun as <-.
  assert (forall root, root ∈ split_roots ->
            size (png_files_in
                    (apply_writes plan_all_.1 (with_specs now_train now_test w1))
                    (label_dir root lab))
            = length (List.filter
                        (fun ri : string * example ndarray =>
                           bool_decide (ri.1 = root) && picks_label lab ri.2)
                        (rounds tfds_load))) as Hcount.
  { intros root Hroot. rewrite png_files_in_writes.
    2:{ intros name. by apply (stages_empty_vacant _ _ fs0). }
    rewrite size_png_files_writes.
    - rewrite plan_all_as_rounds in Hnone |- *.
      apply count_plan_rounds; [|done|done].
      intros r i [k Hk]%list_elem_of_lookup_1. by eapply rounds_root.
    - apply plan_all_nodup.
    - apply plan_all_png.
    - apply Forall_forall. intros [p c] Hin. simpl. intros ->.
      pose proof (plan_all_paths_length fromarray png_encode tfds_load []) as Hl.
      simpl in Hl. discriminate Hl. apply list_elem_of_fmap. by exists ([], c). }
  destruct (count_rounds lab) as [Htr Hte].
  rewrite !Hcount by (apply train_root_split || apply test_root_split).
  split; [exact Htr|exact Hte].
Qed.

End Count.

Lemma png_files_per_label_witness :
  empty_destination ∅ /\
  demo_run = (Ok tt, demo_run.2) /\
  size (png_files_in demo_run.2 (label_dir TRAIN_ROOT "tench")) = 2%nat /\
  size (png_files_in demo_run.2 (label_dir TEST_ROOT "parachute")) = 1%nat.
Proof.
  split; [exact empty_destination_empty|]. split; [exact demo_run_ok|].
  split.
  - exact (proj1 (png_files_per_label Demo.fromarray Demo.png_encode Demo.load
                    Demo.now_train Demo.now_test ∅ _ "tench"
                    empty_destination_empty demo_run_ok)).
  - exact (proj2 (png_files_per_label Demo.fromarray Demo.png_encode Demo.load
                    Demo.now_train Demo.now_test ∅ _ "parachute"
                    empty_destination_empty demo_run_ok)).
Defined.
